(** * restbase-mod-table-mysql: the table-storage orchestration layer (lib/db.js)

    A shallow embedding of [lib/db.js]: the schema cache, the table life
    cycle ([createTable], [dropTable]), the read and write paths ([get],
    [_get], [put], [_put]) and the revision retention step
    ([_revisionPolicyUpdate]).

    The collaborators that [db.js] requires ([dbutils], [clientWrapper],
    [SchemaMigrator], [cassandra-uuid], the wall clock) are interfaces
    here: type classes whose methods are the functions that [db.js] calls. *)

From stdpp Require Import gmap strings list pretty.
From Stdlib Require Import ZArith.

Local Open Scope Z_scope.

(** ** JavaScript values and objects *)

(** The primitive values that flow through [db.js] as attribute and column
    values.  Numbers are the integers ([JNum]); a property that is missing
    reads as [JUndefined]. *)
Inductive JsVal : Type :=
  | JUndefined
  | JNull
  | JBool (b : bool)
  | JNum (n : Z)
  | JStr (s : string).

#[global] Instance JsVal_eq_dec : EqDecision JsVal.
Proof. solve_decision. Defined.

(** [!v] is [negb (truthy v)]. *)
Definition truthy (v : JsVal) : bool :=
  match v with
  | JUndefined | JNull => false
  | JBool b => b
  | JNum n => negb (Z.eqb n 0)
  | JStr s => negb (String.eqb s "")
  end.

(** A plain object with primitive properties (a row, an attribute map):
    its own properties in insertion order, which is the order of
    [Object.keys]. *)
Definition Obj : Type := list (string * JsVal).

(** [o[k]] *)
Fixpoint objGet (o : Obj) (k : string) : JsVal :=
  match o with
  | [] => JUndefined
  | (k', v) :: o' => if String.eqb k' k then v else objGet o' k
  end.

(** [o[k] = v]: an existing property keeps its place, a new one is added
    last. *)
Fixpoint objSet (k : string) (v : JsVal) (o : Obj) : Obj :=
  match o with
  | [] => [(k, v)]
  | (k', v') :: o' =>
      if String.eqb k' k then (k', v) :: o' else (k', v') :: objSet k v o'
  end.

(** [delete o[k]] *)
Fixpoint objDelete (k : string) (o : Obj) : Obj :=
  match o with
  | [] => []
  | (k', v') :: o' =>
      if String.eqb k' k then objDelete k o' else (k', v') :: objDelete k o'
  end.

(** [Object.keys(o)] *)
Definition objKeys (o : Obj) : list string := map fst o.

(** ** Schemas *)

(** [schema.revisionRetentionPolicy] *)
Record RetentionPolicy : Type := mkPolicy {
  rp_type : string;
  rp_count : Z;
  rp_grace_ttl : Z
}.

#[global] Instance RetentionPolicy_eq_dec : EqDecision RetentionPolicy.
Proof. solve_decision. Defined.

(** One element of a declared schema's [index]. *)
Record IndexElem : Type := mkIndex {
  ix_attribute : string;
  ix_type : string;
  ix_order : option string
}.

#[global] Instance IndexElem_eq_dec : EqDecision IndexElem.
Proof. solve_decision. Defined.

(** A declared schema: the request of [createTable], the argument and
    result of [dbu.validateAndNormalizeSchema], the value stored in the
    [meta] relation. *)
Record Desc : Type := mkDesc {
  d_table : option string;
  d_attributes : list (string * string);
  d_index : list IndexElem;
  d_revisionRetentionPolicy : option RetentionPolicy
}.

#[global] Instance Desc_eq_dec : EqDecision Desc.
Proof. solve_decision. Defined.

(** The compiled schema, the result of [dbu.makeSchemaInfo].  Its
    [converters] hold functions; they are read through
    [DbUtils.converters] below, so that a [SchemaInfo] is plain data. *)
Record SchemaInfo : Type := mkSchemaInfo {
  si_attributes : option (list (string * string));
  si_iKeys : list string;
  si_tid : string;
  si_hash : string;
  si_revisionRetentionPolicy : RetentionPolicy
}.

#[global] Instance SchemaInfo_eq_dec : EqDecision SchemaInfo.
Proof. solve_decision. Defined.

(** [schema.attributes[key]]: the name of the attribute's type; a missing
    attribute reads as [undefined], which as a property name is the string
    ["undefined"]. *)
Fixpoint typeOf (attrs : list (string * string)) (key : string) : string :=
  match attrs with
  | [] => "undefined"
  | (k, t) :: attrs' => if String.eqb k key then t else typeOf attrs' key
  end.

(** ** Errors *)

(** [err.cause], with its [code]. *)
Record ErrCause : Type := mkCause { cause_code : option string }.

#[global] Instance ErrCause_eq_dec : EqDecision ErrCause.
Proof. solve_decision. Defined.

(** The [body] of a [dbu.HTTPError]. *)
Record HttpBody : Type := mkBody {
  body_type : string;
  body_title : string;
  body_keyspace : option string;
  body_schema : option SchemaInfo
}.

#[global] Instance HttpBody_eq_dec : EqDecision HttpBody.
Proof. solve_decision. Defined.

(** What can be thrown or be the reason of a rejected promise. *)
Inductive JsError : Type :=
  | Error (message : string)
      (* new Error(message) *)
  | TypeError (message : string)
      (* raised by the language: a property of undefined or null *)
  | HTTPError (status : Z) (body : HttpBody)
      (* new dbu.HTTPError({status, body}) *)
  | Raised (isObject : bool) (cause : option ErrCause) (detail : string).
      (* a failure raised by a collaborator *)

#[global] Instance JsError_eq_dec : EqDecision JsError.
Proof. solve_decision. Defined.

(** The test of the [catch] handler of [_get]:
    [err instanceof Object && err.cause && err.cause.code === 'SQLITE_ERROR']. *)
Definition isSqliteError (err : JsError) : bool :=
  match err with
  | Raised true (Some c) _ =>
      match cause_code c with
      | Some code => String.eqb code "SQLITE_ERROR"
      | None => false
      end
  | _ => false
  end.

(** [v.toString()] *)
Definition toString (v : JsVal) : JsError + string :=
  match v with
  | JUndefined => inl (TypeError "Cannot read property 'toString' of undefined")
  | JNull => inl (TypeError "Cannot read property 'toString' of null")
  | JBool true => inr "true"
  | JBool false => inr "false"
  | JNum n => inr (pretty n)
  | JStr s => inr s
  end.

(** ** Requests, statements and results *)

(** A read or write request.  [req_limit] and [req_next] are integers when
    present. *)
Record Request : Type := mkRequest {
  req_table : option string;
  req_attributes : option Obj;
  req_limit : option Z;
  req_next : option Z;
  req_order : option (list (string * string));
  req_timestamp : option Z
}.

#[global] Instance Request_eq_dec : EqDecision Request.
Proof. solve_decision. Defined.

#[global] Instance Request_inhabited : Inhabited Request :=
  populate (mkRequest None None None None None None).

(** The request [{}]. *)
Definition emptyRequest : Request := mkRequest None None None None None None.

(** A statement handed to the execution engine: [{sql, params}]; a
    statement without bound parameters has [st_params = []]. *)
Record Stmt : Type := mkStmt {
  st_sql : string;
  st_params : list JsVal
}.

#[global] Instance Stmt_eq_dec : EqDecision Stmt.
Proof. solve_decision. Defined.

(** The result of [dbu.buildPutQuery]: [{data, static}]. *)
Record PutQuery : Type := mkPutQuery {
  pq_data : Stmt;
  pq_static : option Stmt
}.

(** What [client.all] resolves to: nothing, one row object, or an array of
    rows. *)
Inductive AllResult : Type :=
  | AllAbsent
  | AllRow (row : Obj)
  | AllRows (rows : list Obj).

(** The result of a read: [{count, items, next}]. *)
Record ReadResult : Type := mkResult {
  res_count : Z;
  res_items : list Obj;
  res_next : option Z
}.

#[global] Instance ReadResult_eq_dec : EqDecision ReadResult.
Proof. solve_decision. Defined.

(** [{status}], the acknowledgement of [createTable] and of a write. *)
Record Ack : Type := mkAck { ack_status : Z }.

#[global] Instance Ack_eq_dec : EqDecision Ack.
Proof. solve_decision. Defined.

(** The result of [getTableSchema]: [{status, tid, schema}]. *)
Record TableSchema : Type := mkTableSchema {
  ts_status : Z;
  ts_tid : JsVal;
  ts_schema : Desc
}.

(** A [SchemaMigrator] object: what its constructor was given (besides the
    [DB] itself). *)
Record SchemaMigrator : Type := mkMigrator {
  mg_req : Desc;
  mg_keyspace : string;
  mg_current : SchemaInfo;
  mg_next : SchemaInfo
}.

#[global] Instance SchemaMigrator_eq_dec : EqDecision SchemaMigrator.
Proof. solve_decision. Defined.

(** A converter of [schema.converters]: its [read] may throw. *)
Record Converter : Type := mkConverter {
  conv_read : JsVal -> JsError + JsVal
}.

(** The declared schema of the [meta] relation, the argument of
    [dbu.validateAndNormalizeSchema] in [DB.prototype.infoSchema]. *)
Definition infoSchemaDeclared : Desc :=
  mkDesc (Some "meta")
    [("key", "string"); ("value", "json"); ("tid", "timeuuid")]
    [mkIndex "key" "hash" None; mkIndex "tid" "range" (Some "desc")]
    None.

(** ** The collaborators *)

(** [dbutils] ([dbu]) and [JSON]: pure functions.  The builders of a read
    and of a write statement take a caller's request and may throw. *)
Class DbUtils : Type := {
  keyspaceName : string -> option string -> string;
  validateAndNormalizeSchema : Desc -> JsError + Desc;
  (* the flag is [isMetaTable]; left out, it is false *)
  makeSchemaInfo : Desc -> bool -> JsError + SchemaInfo;
  (* DB.prototype.infoSchemaInfo: dbu.makeSchemaInfo of the normalized
     infoSchemaDeclared, with isMetaTable true, computed when the module
     is loaded *)
  infoSchemaInfo : SchemaInfo;
  (* schema.converters *)
  converters : SchemaInfo -> gmap string Converter;
  buildTableSql : SchemaInfo -> string -> string -> string;
  buildStaticsTableSql : SchemaInfo -> string -> string;
  buildIndexViewSql : SchemaInfo -> string -> string;
  buildGetQuery :
    string -> Request -> string -> SchemaInfo -> option bool -> JsError + Stmt;
  buildPutQuery :
    Request -> string -> string -> SchemaInfo -> JsError + PutQuery;
  buildDeleteExpiredQuery : SchemaInfo -> string -> Stmt;
  staticTableExist : option SchemaInfo -> bool;
  JSON_parse : JsVal -> JsError + Desc;
  JSON_stringify : Desc -> string;
  (* '' + error *)
  errorToString : JsError -> string
}.

(** The collaborators with state of their own, [X]: the execution engine
    behind [clientWrapper], the migration engine, the generator of time
    UUIDs and the wall clock.  [client_run], [client_all] and [migrate]
    return promises: [inl] is a rejection. *)
Class Collaborators (X : Type) : Type := {
  client_run : list Stmt -> X -> (JsError + unit) * X;
  client_all : string -> list JsVal -> X -> (JsError + AllResult) * X;
  (* new SchemaMigrator(db, req, keyspace, current, next): [Some e] when
     the constructor throws [e] *)
  newSchemaMigrator :
    Desc -> string -> SchemaInfo -> SchemaInfo -> X -> option JsError;
  migrate : SchemaMigrator -> X -> (JsError + unit) * X;
  (* TimeUuid.now().toString() *)
  TimeUuid_now : X -> string * X;
  (* TimeUuid.fromString(s).getDate() *)
  TimeUuid_getDate : string -> JsError + Z;
  (* new Date().getTime() *)
  Date_getTime : X -> Z * X
}.

(** The calls that leave [db.js], in the order they are made. *)
Inductive Event : Type :=
  | EvAll (sql : string) (params : list JsVal)
  | EvRun (queries : list Stmt)
  | EvNewMigrator (m : SchemaMigrator)
  | EvMigrate (m : SchemaMigrator)
  | EvLog (topic : string) (err : JsError).

#[global] Instance Event_eq_dec : EqDecision Event.
Proof. solve_decision. Defined.

(** ** Outcomes *)

(** How a call ends: with a value (returned, or the value a returned
    promise resolves to), by throwing before any promise is returned, or
    with a promise that is rejected. *)
Inductive Outcome (A : Type) : Type :=
  | Ok (a : A)
  | Throw (e : JsError)
  | Reject (e : JsError).

Arguments Ok {A} a.
Arguments Throw {A} e.
Arguments Reject {A} e.

(** Inside the callback of [then] or [catch], a [throw] rejects the promise
    that [then] returned. *)
Definition settled {A : Type} (o : Outcome A) : Outcome A :=
  match o with
  | Throw e => Reject e
  | _ => o
  end.

Section DB.

Context `{dbu : DbUtils} {X : Type} `{collab : Collaborators X}.

(** ** The DB object and its surroundings *)

(** [schemaCache] is [this.schemaCache] ([null] is [None] as a value);
    [heap] holds the request objects that callers pass to [put], by
    reference; [ext] is the state of the collaborators; [trace] records
    the calls made to them. *)
Record DB : Type := mkDB {
  schemaCache : gmap string (option SchemaInfo);
  heap : gmap positive Request;
  ext : X;
  trace : list Event
}.

Definition M (A : Type) : Type := DB -> Outcome A * DB.

#[local] Instance M_ret : MRet M := λ A a w, (Ok a, w).

(** Sequencing of statements. *)
#[local] Instance M_bind : MBind M := λ A B f m w,
  match m w with
  | (Ok a, w') => f a w'
  | (Throw e, w') => (Throw e, w')
  | (Reject e, w') => (Reject e, w')
  end.

(** [throw e] *)
Definition throw {A : Type} (e : JsError) : M A := λ w, (Throw e, w).

(** A call of a pure function that may throw. *)
Definition call {A : Type} (r : JsError + A) : M A := λ w,
  match r with
  | inl e => (Throw e, w)
  | inr a => (Ok a, w)
  end.

(** [p.then(f)] *)
Definition then_ {A B : Type} (p : M A) (f : A -> M B) : M B := λ w,
  match p w with
  | (Ok a, w') => let '(o, w'') := f a w' in (settled o, w'')
  | (Throw e, w') => (Throw e, w')
  | (Reject e, w') => (Reject e, w')
  end.

(** [p.catch(h)] *)
Definition catch_ {A : Type} (p : M A) (h : JsError -> M A) : M A := λ w,
  match p w with
  | (Reject e, w') => let '(o, w'') := h e w' in (settled o, w'')
  | r => r
  end.

(** A call whose promise is dropped: only a [throw] of the call itself
    reaches the caller, who neither waits for the promise nor sees it
    rejected.  One operation runs at a time here, so what the dropped
    promise does is placed before the caller goes on. *)
Definition dropped {A : Type} (p : M A) : M unit := λ w,
  match p w with
  | (Throw e, w') => (Throw e, w')
  | (_, w') => (Ok tt, w')
  end.

Definition record (ev : Event) (w : DB) : DB :=
  mkDB (schemaCache w) (heap w) (ext w) (trace w ++ [ev]).

Definition withExt (x : X) (w : DB) : DB :=
  mkDB (schemaCache w) (heap w) x (trace w).

Definition promised {A : Type} (r : JsError + A) : Outcome A :=
  match r with
  | inl e => Reject e
  | inr a => Ok a
  end.

(** [self.client.run(queries)] *)
Definition clientRun (queries : list Stmt) : M unit := λ w,
  let '(r, x) := client_run queries (ext w) in
  (promised r, withExt x (record (EvRun queries) w)).

(** [self.client.all(sql, params)] *)
Definition clientAll (sql : string) (params : list JsVal) : M AllResult := λ w,
  let '(r, x) := client_all sql params (ext w) in
  (promised r, withExt x (record (EvAll sql params) w)).

(** [new SchemaMigrator(self, req, keyspace, current, next)] *)
Definition newMigrator (req : Desc) (keyspace : string)
    (current next : SchemaInfo) : M SchemaMigrator := λ w,
  let m := mkMigrator req keyspace current next in
  match newSchemaMigrator req keyspace current next (ext w) with
  | Some e => (Throw e, record (EvNewMigrator m) w)
  | None => (Ok m, record (EvNewMigrator m) w)
  end.

(** [migrator.migrate()] *)
Definition runMigrate (m : SchemaMigrator) : M unit := λ w,
  let '(r, x) := migrate m (ext w) in
  (promised r, withExt x (record (EvMigrate m) w)).

(** [self.log(topic, err)] *)
Definition log (topic : string) (err : JsError) : M unit := λ w,
  (Ok tt, record (EvLog topic err) w).

(** [TimeUuid.now().toString()] *)
Definition timeUuidNow : M string := λ w,
  let '(u, x) := TimeUuid_now (ext w) in (Ok u, withExt x w).

(** [new Date().getTime()] *)
Definition dateGetTime : M Z := λ w,
  let '(t, x) := Date_getTime (ext w) in (Ok t, withExt x w).

(** [self.schemaCache[keyspace]], as a value that is a schema or falsy. *)
Definition cached (keyspace : string) (w : DB) : option SchemaInfo :=
  match schemaCache w !! keyspace with
  | Some (Some s) => Some s
  | _ => None
  end.

Definition cacheGet (keyspace : string) : M (option SchemaInfo) := λ w,
  (Ok (cached keyspace w), w).

(** [self.schemaCache[keyspace] = schema] *)
Definition cacheSet (keyspace : string) (schema : option SchemaInfo) : M unit :=
  λ w, (Ok tt, mkDB (<[keyspace := schema]> (schemaCache w)) (heap w) (ext w) (trace w)).

(** [delete self.schemaCache[keyspace]] *)
Definition cacheDelete (keyspace : string) : M unit := λ w,
  (Ok tt, mkDB (delete keyspace (schemaCache w)) (heap w) (ext w) (trace w)).

(** The object behind a reference; a reference that was never allocated
    reads as [{}]. *)
Definition deref (r : positive) : M Request := λ w, (Ok (heap w !!! r), w).

Definition assign (r : positive) (req : Request) : M unit := λ w,
  (Ok tt, mkDB (schemaCache w) (<[r := req]> (heap w)) (ext w) (trace w)).

(** A new object (an object literal). *)
Definition alloc (req : Request) : M positive := λ w,
  let r := fresh (dom (heap w)) in
  (Ok r, mkDB (schemaCache w) (<[r := req]> (heap w)) (ext w) (trace w)).

(** ** The read path *)

(** [if (!table) { table = 'data'; }] *)
Definition tableOrData (table : option string) : string :=
  match table with
  | Some t => if String.eqb t "" then "data" else t
  | None => "data"
  end.

(** The [forEach] of [convertRow] over the keys of the row:
    [row[key] = schema.converters[schema.attributes[key]].read(row[key])]. *)
Fixpoint convertKeys (schema : SchemaInfo) (keys : list string) (row : Obj)
    : JsError + Obj :=
  match keys with
  | [] => inr row
  | key :: keys' =>
      match si_attributes schema with
      | None => inl (TypeError "Cannot read property of undefined")
      | Some attrs =>
          match converters schema !! typeOf attrs key with
          | None => inl (TypeError "Cannot read property 'read' of undefined")
          | Some conv =>
              match conv_read conv (objGet row key) with
              | inl e => inl e
              | inr v => convertKeys schema keys' (objSet key v row)
              end
          end
      end
  end.

(** [convertRow] of [_get]. *)
Definition convertRow (schema : SchemaInfo) (row : Obj) : JsError + Obj :=
  let row := objDelete "_exist_until" row in
  convertKeys schema (objKeys row) row.

(** [rows.map(f)], for an [f] that may throw. *)
Fixpoint mapRows {A B : Type} (f : A -> JsError + B) (rows : list A)
    : JsError + list B :=
  match rows with
  | [] => inr []
  | row :: rows' =>
      match f row with
      | inl e => inl e
      | inr row' =>
          match mapRows f rows' with
          | inl e => inl e
          | inr out => inr (row' :: out)
          end
      end
  end.

(** The truth value of an optional number. *)
Definition truthyNum (n : option Z) : bool :=
  match n with
  | Some n => negb (Z.eqb n 0)
  | None => false
  end.

(** [n || d] *)
Definition numOr (n : option Z) (d : Z) : Z :=
  match n with
  | Some n => if Z.eqb n 0 then d else n
  | None => d
  end.

(** [{count: 0, items: []}] *)
Definition emptyResult : ReadResult := mkResult 0 [] None.

(** The rows of a result that is present: an array of rows is mapped by
    [convertRow], a single row is converted and pushed. *)
Definition convertResult (schema : SchemaInfo) (result : AllResult)
    : JsError + list Obj :=
  match result with
  | AllAbsent => inr []
  | AllRows result => mapRows (convertRow schema) result
  | AllRow result =>
      match convertRow schema result with
      | inl e => inl e
      | inr row => inr [row]
      end
  end.

(** The callback of [then] in [_get]. *)
Definition readRows (schema : SchemaInfo) (req : Request) (result : AllResult)
    : M ReadResult :=
  match result with
  | AllAbsent => mret emptyResult
  | _ =>
      rows ← call (convertResult schema result);
      let n := Z.of_nat (length rows) in
      mret (mkResult n rows
              (if truthyNum (req_next req) || truthyNum (req_limit req)
               then Some (numOr (req_next req) 0 + n) else None))
  end.

(** The callback of [catch] in [_get]. *)
Definition absorbSqliteError (err : JsError) : M ReadResult :=
  if isSqliteError err then mret emptyResult else throw err.

Definition _get (keyspace : string) (req : Request) (table : option string)
    (schema : option SchemaInfo) (includePreparedForDelete : option bool)
    : M ReadResult :=
  let table := tableOrData table in
  match schema with
  | None =>
      throw (Error ("restbase-sqlite3: No schema for " +:+ keyspace +:+ "_" +:+ table))
  | Some schema =>
      buildResult ←
        call (buildGetQuery keyspace req table schema includePreparedForDelete);
      catch_
        (then_ (clientAll (st_sql buildResult) (st_params buildResult))
               (readRows schema req))
        absorbSqliteError
  end.

(** The error of [getTableSchema] when there is no schema. *)
Definition notFound : JsError :=
  HTTPError 404
    (mkBody "notfound" "the requested table schema was not found" None None).

Definition getTableSchema (domain : string) (table : option string)
    : M TableSchema :=
  let keyspace := keyspaceName domain table in
  then_ (_get keyspace emptyRequest (Some "meta") (Some infoSchemaInfo) None)
    (λ res,
      match res_items res with
      | item :: _ =>
          schema ← call (JSON_parse (objGet item "value"));
          mret (mkTableSchema 200 (objGet item "tid") schema)
      | [] => throw notFound
      end).

Definition _getSchema (keyspace : string) : M (option SchemaInfo) :=
  then_ (_get keyspace emptyRequest (Some "meta") (Some infoSchemaInfo) None)
    (λ res,
      match res_items res with
      | item :: _ =>
          schema ← call (JSON_parse (objGet item "value"));
          info ← call (makeSchemaInfo schema false);
          mret (Some info)
      | [] => mret None
      end).

Definition get (domain : string) (req : Request) : M ReadResult :=
  let keyspace := keyspaceName domain (req_table req) in
  c ← cacheGet keyspace;
  match c with
  | None =>
      then_ (_getSchema keyspace)
        (λ schema,
          cacheSet keyspace schema;;
          _get keyspace req (Some "data") schema None)
  | Some schema => _get keyspace req (Some "data") (Some schema) None
  end.

(** ** The write path and the retention of revisions *)

(** [array.slice(0, end)] *)
Definition slice0 {A : Type} (end_ : Z) (l : list A) : list A :=
  if Z.ltb end_ 0 then take (length l - Z.to_nat (- end_)) l
  else take (Z.to_nat end_) l.

(** The [forEach] of [_revisionPolicyUpdate] over [schema.iKeys], filling
    [dataQuery.attributes]. *)
Fixpoint itemKey (tid : string) (iKeys : list string) (attributes : option Obj)
    (acc : Obj) : JsError + Obj :=
  match iKeys with
  | [] => inr acc
  | att :: iKeys' =>
      if String.eqb att tid then itemKey tid iKeys' attributes acc
      else
        match attributes with
        | None => inl (TypeError "Cannot read property of undefined")
        | Some a => itemKey tid iKeys' attributes (objSet att (objGet a att) acc)
        end
  end.

(** The update of one excess revision: the row as it was read, with
    [_exist_until] set. *)
Definition markQuery (query : Request) (expireTime : Z) (item : Obj) : Request :=
  mkRequest (req_table query)
    (Some (objSet "_exist_until" (JNum expireTime) item)) None None None None.

Definition markStmt (keyspace : string) (query : Request) (schema : SchemaInfo)
    (expireTime : Z) (item : Obj) : JsError + Stmt :=
  match buildPutQuery (markQuery query expireTime item) keyspace "data" schema with
  | inl e => inl e
  | inr q => inr (pq_data q)
  end.

(** [dataQuery] of [_revisionPolicyUpdate] once it is filled: the table of
    the write, the key of the item, [order] by ascending [tid]. *)
Definition revisionsQuery (schema : SchemaInfo) (query : Request) (key : Obj)
    : Request :=
  mkRequest (req_table query) (Some key) None None
    (Some [(si_tid schema, "asc")]) None.

(** [new Date().getTime() + schema.revisionRetentionPolicy.grace_ttl * 1000] *)
Definition expireTime (schema : SchemaInfo) (now : Z) : Z :=
  now + rp_grace_ttl (si_revisionRetentionPolicy schema) * 1000.

Definition _revisionPolicyUpdate (keyspace : string) (query : Request)
    (schema : SchemaInfo) : M unit :=
  let policy := si_revisionRetentionPolicy schema in
  if String.eqb (rp_type policy) "latest" then
    now ← dateGetTime;
    let expireTime := expireTime schema now in
    attributes ← call (itemKey (si_tid schema) (si_iKeys schema)
                         (req_attributes query) []);
    let dataQuery := revisionsQuery schema query attributes in
    then_ (_get keyspace dataQuery (Some "data") (Some schema) (Some false))
      (λ result,
        if Z.ltb (rp_count policy) (res_count result) then
          let extraItems :=
            slice0 (res_count result - rp_count policy) (res_items result) in
          then_ (call (mapRows (markStmt keyspace query schema expireTime)
                         extraItems))
            (λ queries,
              clientRun (queries ++ [buildDeleteExpiredQuery schema keyspace]))
        else mret tt)
  else mret tt.

Definition setAttribute (k : string) (v : JsVal) (req : Request) : Request :=
  mkRequest (req_table req)
    (Some (objSet k v (default [] (req_attributes req))))
    (req_limit req) (req_next req) (req_order req) (req_timestamp req).

Definition setTimestamp (t : Z) (req : Request) : Request :=
  mkRequest (req_table req) (req_attributes req) (req_limit req) (req_next req)
    (req_order req) (Some t).

(** [req.attributes[k]] *)
Definition attribute (req : Request) (k : string) : JsError + JsVal :=
  match req_attributes req with
  | None => inl (TypeError "Cannot read property of undefined")
  | Some a => inr (objGet a k)
  end.

(** The schema that [_put] writes under: the built-in schema for [meta],
    the cached schema of the keyspace for [data], none otherwise. *)
Definition putSchema (table : string) (cache : option SchemaInfo)
    : option SchemaInfo :=
  if String.eqb table "meta" then Some infoSchemaInfo
  else if String.eqb table "data" then cache
  else None.

(** [queries = [query.data]], with [query.static] pushed when there is one. *)
Definition putBatch (query : PutQuery) : list Stmt :=
  pq_data query :: match pq_static query with
                   | Some static => [static]
                   | None => []
                   end.

Definition _put (keyspace : string) (r : positive) (table : option string)
    : M Ack :=
  let table := tableOrData table in
  cache ← cacheGet keyspace;
  let schema := putSchema table cache in
  match schema with
  | None => throw (Error "Table not found!")
  | Some schema =>
      req ← deref r;
      tid ← call (attribute req (si_tid schema));
      (if truthy tid then mret tt
       else
         uuid ← timeUuidNow;
         assign r (setAttribute (si_tid schema) (JStr uuid) req));;
      req ← deref r;
      tid ← call (attribute req (si_tid schema));
      s ← call (toString tid);
      date ← call (TimeUuid_getDate s);
      assign r (setTimestamp date req);;
      req ← deref r;
      query ← call (buildPutQuery req keyspace table schema);
      let queries := putBatch query in
      then_
        (then_ (clientRun queries)
           (λ _,
             if String.eqb table "data"
             then dropped (_revisionPolicyUpdate keyspace req schema)
             else mret tt))
        (λ _, mret (mkAck 201))
  end.

Definition put (domain : string) (r : positive) : M Ack :=
  req ← deref r;
  let keyspace := keyspaceName domain (req_table req) in
  c ← cacheGet keyspace;
  match c with
  | None =>
      then_ (_getSchema keyspace)
        (λ schema,
          cacheSet keyspace schema;;
          _put keyspace r None)
  | Some _ => _put keyspace r None
  end.

(** ** The life cycle of a table *)

Definition _createTable (keyspace : string) (schema : SchemaInfo) : M unit :=
  match si_attributes schema with
  | None => throw (Error ("No attribute definitions for table " +:+ keyspace))
  | Some _ =>
      clientRun
        [ mkStmt (buildTableSql schema keyspace "data") [];
          mkStmt (buildTableSql infoSchemaInfo keyspace "meta") [];
          mkStmt (buildStaticsTableSql schema keyspace) [];
          mkStmt (buildIndexViewSql schema keyspace) [] ]
  end.

(** The request of the metadata write of [createTable]:
    [{attributes: {key: 'schema', value: JSON.stringify(schema)}}]. *)
Definition schemaRow (schema : Desc) : Request :=
  mkRequest None
    (Some [("key", JStr "schema"); ("value", JStr (JSON_stringify schema))])
    None None None None.

(** The error thrown when the migrator cannot be constructed. *)
Definition cannotUpgrade (keyspace : string) (schemaInfo : SchemaInfo)
    (error : JsError) : JsError :=
  HTTPError 400
    (mkBody "bad_request"
       ("The table already exists, and its schema cannot be upgraded to the requested schema ("
          +:+ errorToString error +:+ ").")
       (Some keyspace) (Some schemaInfo)).

(** [try { migrator = new SchemaMigrator(...) } catch (error) { throw ... }] *)
Definition tryNewMigrator (req : Desc) (keyspace : string)
    (currentSchema schemaInfo : SchemaInfo) : M SchemaMigrator := λ w,
  match newMigrator req keyspace currentSchema schemaInfo w with
  | (Throw error, w') => (Throw (cannotUpgrade keyspace schemaInfo error), w')
  | r => r
  end.

Definition createTable (domain : string) (req : Desc) : M Ack :=
  match d_table req with
  | None | Some "" => throw (Error "Table name required.")
  | Some _ =>
      let keyspace := keyspaceName domain (d_table req) in
      then_ (_getSchema keyspace)
        (λ currentSchema,
          schema ← call (validateAndNormalizeSchema req);
          schemaInfo ← call (makeSchemaInfo schema false);
          let finish : M Ack :=
            cacheSet keyspace (Some schemaInfo);;
            r ← alloc (schemaRow schema);
            _put keyspace r (Some "meta") in
          match currentSchema with
          | Some currentSchema =>
              if negb (String.eqb (si_hash currentSchema) (si_hash schemaInfo))
              then
                migrator ← tryNewMigrator req keyspace currentSchema schemaInfo;
                let createOperation :=
                  catch_ (runMigrate migrator)
                    (λ error,
                      log "error/cassandra/table_update" error;;
                      throw error) in
                then_ createOperation (λ _, finish)
              else mret (mkAck 201)
          | None =>
              let createOperation := _createTable keyspace schemaInfo in
              then_ createOperation (λ _, finish)
          end)
  end.

(** [deleteRequest] of [dropTable]. *)
Definition deleteRequest (keyspace : string) (schema : option SchemaInfo)
    : M unit :=
  let queries :=
    [ mkStmt ("drop view " +:+ keyspace +:+ "_indexView") [];
      mkStmt ("drop table " +:+ keyspace +:+ "_meta") [];
      mkStmt ("drop table " +:+ keyspace +:+ "_data") [] ] in
  let queries :=
    if staticTableExist schema
    then (queries ++ [mkStmt ("drop table " +:+ keyspace +:+ "_static") []])%list
    else queries in
  clientRun queries.

Definition dropTable (domain : string) (table : option string) : M unit :=
  let keyspace := keyspaceName domain table in
  c ← cacheGet keyspace;
  match c with
  | None => then_ (_getSchema keyspace) (λ schema, deleteRequest keyspace schema)
  | Some schema =>
      cacheDelete keyspace;;
      deleteRequest keyspace (Some schema)
  end.

End DB.

Arguments DB X : clear implicits.
Arguments M X A : clear implicits.

Arguments _get : simpl never.
Arguments _getSchema : simpl never.
Arguments _revisionPolicyUpdate : simpl never.
Arguments _put : simpl never.
Arguments _createTable : simpl never.

(** ** A scripted instance of the collaborators

    An execution engine that answers from a script, a migration engine
    whose verdicts are set beforehand, time UUIDs that are the decimal
    clock, and a small [dbutils].  It serves to run the operations on
    concrete requests. *)
Module Mock.

Record State : Type := mkState {
  allReplies : list (JsError + AllResult);
  runReplies : list (JsError + unit);
  refusal : option JsError;
  migrateReply : JsError + unit;
  clock : Z
}.

Definition digit (a : Ascii.ascii) : option Z :=
  let n := Z.of_nat (Ascii.nat_of_ascii a) in
  if Z.leb 48 n && Z.leb n 57 then Some (n - 48) else None.

Fixpoint digits (s : string) (acc : Z) : option Z :=
  match s with
  | EmptyString => Some acc
  | String a s' =>
      match digit a with
      | Some d => digits s' (10 * acc + d)
      | None => None
      end
  end.

Definition getDate (s : string) : JsError + Z :=
  match s with
  | EmptyString => inl (Error "Invalid string representation of TimeUuid")
  | _ =>
      match digits s 0 with
      | Some t => inr t
      | None => inl (Error "Invalid string representation of TimeUuid")
      end
  end.

#[export] Instance collaborators : Collaborators State := {|
  client_run _ x :=
    match runReplies x with
    | [] => (inr tt, x)
    | r :: rs =>
        (r, mkState (allReplies x) rs (refusal x) (migrateReply x) (clock x))
    end;
  client_all _ _ x :=
    match allReplies x with
    | [] => (inr AllAbsent, x)
    | r :: rs =>
        (r, mkState rs (runReplies x) (refusal x) (migrateReply x) (clock x))
    end;
  newSchemaMigrator _ _ _ _ x := refusal x;
  migrate _ x := (migrateReply x, x);
  TimeUuid_now x :=
    (pretty (clock x),
     mkState (allReplies x) (runReplies x) (refusal x) (migrateReply x)
       (clock x + 1));
  TimeUuid_getDate := getDate;
  Date_getTime x := (clock x, x)
|}.

Definition showAttributes (attrs : list (string * string)) : string :=
  foldr (λ '(k, t) acc, k +:+ ":" +:+ t +:+ "," +:+ acc) "" attrs.

Definition stringify (d : Desc) : string :=
  default "" (d_table d) +:+ "{" +:+ showAttributes (d_attributes d) +:+ "}".

(** The declared schemas that this [JSON.parse] knows. *)
Definition pages : Desc :=
  mkDesc (Some "pages")
    [("title", "string"); ("tid", "timeuuid"); ("body", "string")]
    [mkIndex "title" "hash" None; mkIndex "tid" "range" (Some "desc")]
    (Some (mkPolicy "latest" 2 86400)).

Definition pages2 : Desc :=
  mkDesc (Some "pages")
    [("title", "string"); ("tid", "timeuuid"); ("body", "string");
     ("author", "string")]
    [mkIndex "title" "hash" None; mkIndex "tid" "range" (Some "desc")]
    (Some (mkPolicy "latest" 2 86400)).

Definition parse (v : JsVal) : JsError + Desc :=
  match v with
  | JStr s =>
      if String.eqb s (stringify pages) then inr pages
      else if String.eqb s (stringify pages2) then inr pages2
      else inl (Raised true None "SyntaxError: Unexpected token")
  | _ => inl (Raised true None "SyntaxError: Unexpected token")
  end.

Definition identity : Converter := mkConverter (λ v, inr v).

Definition values (req : Request) : list JsVal :=
  map snd (default [] (req_attributes req)).

#[export] Instance dbutils : DbUtils := {|
  keyspaceName domain table := domain +:+ "_" +:+ default "undefined" table;
  validateAndNormalizeSchema d := inr d;
  makeSchemaInfo d _ :=
    inr (mkSchemaInfo (Some (d_attributes d)) (map ix_attribute (d_index d))
           "tid" (stringify d)
           (default (mkPolicy "all" 0 0) (d_revisionRetentionPolicy d)));
  infoSchemaInfo :=
    mkSchemaInfo
      (Some [("key", "string"); ("value", "json"); ("tid", "timeuuid")])
      ["key"; "tid"] "tid" "meta" (mkPolicy "all" 0 0);
  converters _ :=
    list_to_map
      [("string", identity); ("json", identity); ("timeuuid", identity)];
  buildTableSql _ keyspace table := "create table " +:+ keyspace +:+ "_" +:+ table;
  buildStaticsTableSql _ keyspace := "create table " +:+ keyspace +:+ "_static";
  buildIndexViewSql _ keyspace := "create view " +:+ keyspace +:+ "_indexView";
  buildGetQuery keyspace req table _ _ :=
    inr (mkStmt ("select * from " +:+ keyspace +:+ "_" +:+ table) (values req));
  buildPutQuery req keyspace table _ :=
    inr (mkPutQuery
           (mkStmt ("insert or replace into " +:+ keyspace +:+ "_" +:+ table)
              (values req))
           None);
  buildDeleteExpiredQuery _ keyspace :=
    mkStmt ("delete from " +:+ keyspace +:+ "_data where _exist_until < ?") [];
  staticTableExist schema :=
    match schema with
    | Some s => bool_decide ("static" ∈ si_iKeys s)
    | None => false
    end;
  JSON_parse := parse;
  JSON_stringify := stringify;
  errorToString e :=
    match e with
    | Error m => "Error: " +:+ m
    | TypeError m => "TypeError: " +:+ m
    | HTTPError _ b => "HTTPError: " +:+ body_title b
    | Raised _ _ d => d
    end
|}.

(** A fresh [DB] over an engine with the given script. *)
Definition db (x : State) : DB State := mkDB ∅ ∅ x [].

(** An engine that finds nothing and accepts every batch. *)
Definition idle : State := mkState [] [] None (inr tt) 1000.

(** The compiled schema of [pages]. *)
Definition pagesInfo : SchemaInfo :=
  mkSchemaInfo
    (Some [("title", "string"); ("tid", "timeuuid"); ("body", "string")])
    ["title"; "tid"] "tid" (stringify pages) (mkPolicy "latest" 2 86400).

(** Three revisions of the page [a], oldest first. *)
Definition revisions : list Obj :=
  [ [("title", JStr "a"); ("tid", JStr "1"); ("body", JStr "x")];
    [("title", JStr "a"); ("tid", JStr "2"); ("body", JStr "y")];
    [("title", JStr "a"); ("tid", JStr "3"); ("body", JStr "z")] ].

(** A read of the page [a], ten revisions at most. *)
Definition readPage : Request :=
  mkRequest (Some "pages") (Some [("title", JStr "a")]) (Some 10) None None None.

(** An engine that answers its first query with [reply]. *)
Definition answering (reply : JsError + AllResult) : State :=
  mkState [reply] [] None (inr tt) 1000.

(** The failure of a query on a relation that does not exist. *)
Definition noSuchTable : JsError :=
  Raised true (Some (mkCause (Some "SQLITE_ERROR")))
    "SQLITE_ERROR: no such table: en_pages_data".

(** The compiled schema of [pages2]. *)
Definition pages2Info : SchemaInfo :=
  mkSchemaInfo
    (Some [("title", "string"); ("tid", "timeuuid"); ("body", "string");
           ("author", "string")])
    ["title"; "tid"] "tid" (stringify pages2) (mkPolicy "latest" 2 86400).

(** The row of [meta] that stores the declared schema [d]. *)
Definition metaRow (d : Desc) : Obj :=
  [("key", JStr "schema"); ("value", JStr (stringify d)); ("tid", JStr "999")].

(** An engine whose [meta] relation stores [d]. *)
Definition storing (d : Desc) : State := answering (inr (AllRows [metaRow d])).

(** An engine that finds no metadata at first, and [d] the second time. *)
Definition creating (d : Desc) : State :=
  mkState [inr AllAbsent; inr (AllRows [metaRow d])] [] None (inr tt) 1000.

(** The failure of a migration. *)
Definition migrationFailed : JsError :=
  Raised true None "Error: cannot alter the table".

(** An engine that stores [d] and whose migrations are rejected. *)
Definition refusing (d : Desc) : State :=
  mkState [inr (AllRows [metaRow d])] [] None (inl migrationFailed) 1000.

(** A write of a revision of the page [a], without [tid]. *)
Definition writePage : Request :=
  mkRequest (Some "pages") (Some [("title", JStr "a"); ("body", JStr "b")])
    None None None None.

(** A [DB] that has the schema of [pages] cached and whose caller holds
    [writePage] behind the reference 1; the engine answers its first query
    with the three revisions. *)
Definition serving : DB State :=
  mkDB {["en_pages" := Some pagesInfo]} {[1%positive := writePage]}
    (answering (inr (AllRows revisions))) [].

(** A [DB] with nothing cached, over an idle engine, whose caller holds
    [writePage]. *)
Definition blank : DB State :=
  mkDB ∅ {[1%positive := writePage]} idle [].

(** A [dbutils] whose validation refuses a schema without attributes. *)
Definition strict : DbUtils := {|
  keyspaceName := @keyspaceName dbutils;
  validateAndNormalizeSchema d :=
    match d_attributes d with
    | [] => inl (Error "Attributes are required")
    | _ => inr d
    end;
  makeSchemaInfo := @makeSchemaInfo dbutils;
  infoSchemaInfo := @infoSchemaInfo dbutils;
  converters := @converters dbutils;
  buildTableSql := @buildTableSql dbutils;
  buildStaticsTableSql := @buildStaticsTableSql dbutils;
  buildIndexViewSql := @buildIndexViewSql dbutils;
  buildGetQuery := @buildGetQuery dbutils;
  buildPutQuery := @buildPutQuery dbutils;
  buildDeleteExpiredQuery := @buildDeleteExpiredQuery dbutils;
  staticTableExist := @staticTableExist dbutils;
  JSON_parse := @JSON_parse dbutils;
  JSON_stringify := @JSON_stringify dbutils;
  errorToString := @errorToString dbutils
|}.

(** A declared schema without attributes. *)
Definition bare : Desc := mkDesc (Some "pages") [] [] None.

(** The failure of an engine that is busy. *)
Definition busy : JsError :=
  Raised true (Some (mkCause (Some "SQLITE_BUSY")))
    "SQLITE_BUSY: database is locked".

(** An engine that finds no metadata, accepts the first batch and rejects
    the second. *)
Definition halfway : State :=
  mkState [] [inr tt; inl busy] None (inr tt) 1000.

(** An engine that stores [pages] and answers the next query with the
    three revisions. *)
Definition stocked : State :=
  mkState [inr (AllRows [metaRow pages]); inr (AllRows revisions)] []
    None (inr tt) 1000.

(** A [DB] with nothing cached whose caller holds [writePage], over
    [stocked]. *)
Definition cold : DB State :=
  mkDB ∅ {[1%positive := writePage]} stocked [].

(** A [DB] that has the schema of [pages] cached, over an engine that
    finds nothing. *)
Definition warm : DB State :=
  mkDB {["en_pages" := Some pagesInfo]} ∅ idle [].

(** A write of a revision of the page [a] whose [tid] is no time UUID. *)
Definition writeBadTid : Request :=
  mkRequest (Some "pages")
    (Some [("title", JStr "a"); ("tid", JStr "yesterday")])
    None None None None.

(** A [DB] like [serving] whose engine rejects every query of the
    retention step. *)
Definition servingBusy : DB State :=
  mkDB {["en_pages" := Some pagesInfo]} {[1%positive := writePage]}
    (answering (inl busy)) [].

End Mock.

(** ** What a read resolves to *)

(** The pagination field of a result with [n] rows. *)
Definition nextField (req : Request) (n : Z) : option Z :=
  if truthyNum (req_next req) || truthyNum (req_limit req)
  then Some (default 0 (req_next req) + n)
  else None.

(** The outcome of [_get], given what [client.all] settled with. *)
Definition getOutcome `{DbUtils} (schema : SchemaInfo) (req : Request)
    (r : JsError + AllResult) : Outcome ReadResult :=
  match r with
  | inl e => if isSqliteError e then Ok emptyResult else Reject e
  | inr AllAbsent => Ok emptyResult
  | inr result =>
      match convertResult schema result with
      | inl e => if isSqliteError e then Ok emptyResult else Reject e
      | inr rows =>
          Ok (mkResult (Z.of_nat (length rows)) rows
                (nextField req (Z.of_nat (length rows))))
      end
  end.

(** ** What a write does after the request is stamped *)

(** The value of the [tid] attribute that a write uses: the request's own
    when it is truthy, a new time UUID otherwise. *)
Definition tidUsed `{Collaborators X} (schema : SchemaInfo) (attrs : Obj)
    (x : X) : JsVal * X :=
  if truthy (objGet attrs (si_tid schema)) then (objGet attrs (si_tid schema), x)
  else let '(uuid, x') := TimeUuid_now x in (JStr uuid, x').

(** The request object after [_put] has assigned [tid] and [timestamp]. *)
Definition stamped (schema : SchemaInfo) (req : Request) (attrs : Obj)
    (used : JsVal) (date : Z) : Request :=
  setTimestamp date
    (if truthy (objGet attrs (si_tid schema)) then req
     else setAttribute (si_tid schema) used req).

(** [_put] from [dbu.buildPutQuery] on. *)
Definition putTail `{DbUtils} `{Collaborators X} (keyspace table : string)
    (schema : SchemaInfo) (req : Request) : M X Ack :=
  λ w,
  match buildPutQuery req keyspace table schema with
  | inl e => (Throw e, w)
  | inr query =>
      then_
        (then_ (clientRun (putBatch query))
           (λ _,
             if String.eqb table "data"
             then dropped (_revisionPolicyUpdate keyspace req schema)
             else (λ w, (Ok tt, w))))
        (λ _ w, (Ok (mkAck 201), w)) w
  end.

Arguments putTail : simpl never.

(** The three statements that [dropTable] always runs, and the fourth for
    the [static] relation. *)
Definition dropBatch (keyspace : string) (static : bool) : list Stmt :=
  [ mkStmt ("drop view " +:+ keyspace +:+ "_indexView") [];
    mkStmt ("drop table " +:+ keyspace +:+ "_meta") [];
    mkStmt ("drop table " +:+ keyspace +:+ "_data") [] ]
  ++ (if static
      then [mkStmt ("drop table " +:+ keyspace +:+ "_static") []]
      else []).

(** The world with [schemaCache[keyspace]] set. *)
Definition withCache {X : Type} (keyspace : string)
    (schema : option SchemaInfo) (w : DB X) : DB X :=
  mkDB (<[keyspace := schema]> (schemaCache w)) (heap w) (ext w) (trace w).

(** The world with the object behind [r] replaced. *)
Definition withObject {X : Type} (r : positive) (req : Request) (w : DB X)
    : DB X :=
  mkDB (schemaCache w) (<[r := req]> (heap w)) (ext w) (trace w).

(** The world when the batch of a write has run: the request object is
    stamped, the engine is in state [x], the batch is recorded. *)
Definition afterWrite {X : Type} (r : positive) (written : Request)
    (batch : list Stmt) (x : X) (w : DB X) : DB X :=
  mkDB (schemaCache w) (<[r := written]> (heap w)) x
    (trace w ++ [EvRun batch]).

(** The continuation of [createTable] once the table is created or
    migrated: the cache is set and the schema is written to [meta]. *)
Definition persistSchema `{DbUtils} `{Collaborators X} (keyspace : string)
    (schema : Desc) (schemaInfo : SchemaInfo) : M X Ack :=
  λ w,
  _put keyspace (fresh (dom (heap w))) (Some "meta")
    (mkDB (<[keyspace := Some schemaInfo]> (schemaCache w))
       (<[fresh (dom (heap w)) := schemaRow schema]> (heap w))
       (ext w) (trace w)).

(** ** Helpers for the properties besides the claims *)

(** A call of [client.all]. *)
Definition isQuery (ev : Event) : bool :=
  match ev with
  | EvAll _ _ => true
  | _ => false
  end.

(** The batch of [_createTable]. *)
Definition createBatch `{DbUtils} (keyspace : string) (schema : SchemaInfo)
    : list Stmt :=
  [ mkStmt (buildTableSql schema keyspace "data") [];
    mkStmt (buildTableSql infoSchemaInfo keyspace "meta") [];
    mkStmt (buildStaticsTableSql schema keyspace) [];
    mkStmt (buildIndexViewSql schema keyspace) [] ].

(** The attributes of the metadata row of [createTable], before [_put]
    stamps it. *)
Definition schemaAttributes `{DbUtils} (schema : Desc) : Obj :=
  [("key", JStr "schema"); ("value", JStr (JSON_stringify schema))].

(** The request [req] with its [next] replaced, as a caller that pages
    passes it back. *)
Definition withNext (next : option Z) (req : Request) : Request :=
  mkRequest (req_table req) (req_attributes req) (req_limit req) next
    (req_order req) (req_timestamp req).

(** The world with another schema cache. *)
Definition recache {X : Type} (cache : gmap string (option SchemaInfo))
    (w : DB X) : DB X :=
  mkDB cache (heap w) (ext w) (trace w).

(** * Properties *)

Section Properties.

Context `{dbu : DbUtils} {X : Type} `{collab : Collaborators X}.

Implicit Types (w : DB X) (schema : SchemaInfo) (req : Request).
Implicit Types (keyspace domain : string) (e : JsError).

Ltac unfold_monad :=
  unfold mbind, M_bind, mret, M_ret, then_, catch_, call, throw, dropped,
    clientAll, clientRun, cacheGet, cacheSet, cacheDelete, deref, assign,
    alloc, timeUuidNow, dateGetTime, log, runMigrate in *.

Lemma numOr_default (n : option Z) : numOr n 0 = default 0 n.
Proof. destruct n as [n|]; simpl; [destruct (Z.eqb_spec n 0); congruence | done]. Qed.


(** [_get] makes one call of [client.all] and settles by [getOutcome]. *)
Lemma _get_run keyspace req table schema incl w q r x :
  buildGetQuery keyspace req (tableOrData table) schema incl = inr q →
  client_all (st_sql q) (st_params q) (ext w) = (r, x) →
  _get keyspace req table (Some schema) incl w =
    (getOutcome schema req r,
     withExt x (record (EvAll (st_sql q) (st_params q)) w)).
Proof.
  intros Hq Hall. unfold _get. unfold_monad. rewrite Hq. simpl. rewrite Hall.
  unfold getOutcome, readRows, absorbSqliteError, nextField.
  destruct r as [e|[|row|rows]]; simpl.
  - unfold_monad. by destruct (isSqliteError e).
  - done.
  - unfold_monad. destruct (convertRow schema row) as [e|row']; simpl.
    + by destruct (isSqliteError e).
    + by rewrite numOr_default.
  - unfold_monad. destruct (mapRows (convertRow schema) rows) as [e|rows']; simpl.
    + by destruct (isSqliteError e).
    + by rewrite numOr_default.
Qed.

(** [_get] throws when the statement cannot be built, and calls nothing. *)
Lemma _get_throw keyspace req table schema incl w e :
  buildGetQuery keyspace req (tableOrData table) schema incl = inl e →
  _get keyspace req table (Some schema) incl w = (Throw e, w).
Proof. intros Hq. unfold _get. unfold_monad. by rewrite Hq. Qed.

Lemma getOutcome_count schema req r res :
  getOutcome schema req r = Ok res →
  res_count res = Z.of_nat (length (res_items res)).
Proof.
  unfold getOutcome. intros Hres.
  destruct r as [e|[|row|rows]];
    repeat match type of Hres with
           | context [isSqliteError ?e] => destruct (isSqliteError e)
           | context [convertResult ?s ?r] => destruct (convertResult s r)
           end;
    by inversion Hres.
Qed.

(** C10. A read that resolves returns a result whose [count] is the length
    of its [items]: when the engine returned nothing, one row object or an
    array of rows, and when an SQLITE_ERROR failure was absorbed. *)
Theorem get_count_is_items_length keyspace req table oschema incl w res w' :
  _get keyspace req table oschema incl w = (Ok res, w') →
  res_count res = Z.of_nat (length (res_items res)).
Proof.
  destruct oschema as [schema|]; [|by unfold _get, throw].
  destruct (buildGetQuery keyspace req (tableOrData table) schema incl)
    as [e|q] eqn:Hq.
  - by rewrite (_get_throw _ _ _ _ _ _ _ Hq).
  - destruct (client_all (st_sql q) (st_params q) (ext w)) as [r x] eqn:Hall.
    rewrite (_get_run _ _ _ _ _ _ _ _ _ Hq Hall). intros [= Hres _].
    by eapply getOutcome_count.
Qed.

(** C5, amended. A read that resolves from a result the engine returned (a
    row or an array of rows, all converted) carries [next] if and only if
    [request.next] or [request.limit] is truthy (present and not zero), and
    then [next] is [request.next] (0 when absent) plus the number of rows
    returned.  A read for which the engine returned nothing, or whose
    failure was absorbed, resolves to [{count: 0, items: []}] without
    [next]; so does every read whose request has neither [next] nor
    [limit]. *)
Theorem get_next_field keyspace req table schema incl w q r x res w' :
  buildGetQuery keyspace req (tableOrData table) schema incl = inr q →
  client_all (st_sql q) (st_params q) (ext w) = (r, x) →
  _get keyspace req table (Some schema) incl w = (Ok res, w') →
  (∀ result rows,
     r = inr result → result ≠ AllAbsent →
     convertResult schema result = inr rows →
     res_items res = rows ∧
     res_next res =
       (if truthyNum (req_next req) || truthyNum (req_limit req)
        then Some (default 0 (req_next req) + Z.of_nat (length rows))
        else None))
  ∧ (r = inr AllAbsent ∨ (∃ e, r = inl e) → res = emptyResult)
  ∧ (req_next req = None → req_limit req = None → res_next res = None).
Proof.
  intros Hq Hall. rewrite (_get_run _ _ _ _ _ _ _ _ _ Hq Hall).
  intros [= Hres _]. unfold getOutcome, nextField in Hres.
  split; [|split].
  - intros result rows -> Habs Hconv. rewrite Hconv in Hres.
    destruct result; [done| |]; by inversion Hres.
  - intros [->|[e ->]]; [by inversion Hres|].
    destruct (isSqliteError e); by inversion Hres.
  - intros Hn Hl. rewrite Hn, Hl in Hres. simpl in Hres.
    destruct r as [e|[|row|rows]];
      repeat match type of Hres with
             | context [isSqliteError ?e] => destruct (isSqliteError e)
             | context [convertResult ?s ?r] => destruct (convertResult s r)
             end;
      by inversion Hres.
Qed.


(** ** Loading the schema *)

Lemma _get_frame keyspace req table oschema incl w o w' :
  _get keyspace req table oschema incl w = (o, w') →
  schemaCache w' = schemaCache w ∧ heap w' = heap w ∧
  (trace w' = trace w ∨ ∃ sql params, trace w' = trace w ++ [EvAll sql params]).
Proof.
  destruct oschema as [schema|]; [|unfold _get, throw; intros [= _ <-]; auto].
  destruct (buildGetQuery keyspace req (tableOrData table) schema incl)
    as [e|q] eqn:Hq.
  - rewrite (_get_throw _ _ _ _ _ _ _ Hq). intros [= _ <-]. auto.
  - destruct (client_all (st_sql q) (st_params q) (ext w)) as [r x] eqn:Hall.
    rewrite (_get_run _ _ _ _ _ _ _ _ _ Hq Hall). intros [= _ <-]. simpl.
    eauto 6.
Qed.

Lemma _getSchema_none keyspace w res w1 :
  _get keyspace emptyRequest (Some "meta") (Some infoSchemaInfo) None w
    = (Ok res, w1) →
  res_items res = [] →
  _getSchema keyspace w = (Ok None, w1).
Proof.
  intros Hget Hitems. unfold _getSchema, then_. rewrite Hget, Hitems. done.
Qed.

Lemma _getSchema_some keyspace w res w1 item rest d info :
  _get keyspace emptyRequest (Some "meta") (Some infoSchemaInfo) None w
    = (Ok res, w1) →
  res_items res = item :: rest →
  JSON_parse (objGet item "value") = inr d →
  makeSchemaInfo d false = inr info →
  _getSchema keyspace w = (Ok (Some info), w1).
Proof.
  intros Hget Hitems Hparse Hinfo. unfold _getSchema, then_.
  rewrite Hget, Hitems. unfold_monad. by rewrite Hparse, Hinfo.
Qed.

Lemma _getSchema_frame keyspace w o w' :
  _getSchema keyspace w = (o, w') →
  schemaCache w' = schemaCache w ∧ heap w' = heap w ∧
  (trace w' = trace w ∨ ∃ sql params, trace w' = trace w ++ [EvAll sql params]).
Proof.
  unfold _getSchema, then_.
  destruct (_get keyspace emptyRequest (Some "meta") (Some infoSchemaInfo)
              None w) as [o1 w1] eqn:Hget.
  apply _get_frame in Hget.
  destruct o1 as [res|e|e]; try (intros [= _ <-]; exact Hget).
  destruct (res_items res) as [|item rest]; unfold_monad.
  - intros [= _ <-]. exact Hget.
  - destruct (JSON_parse (objGet item "value")); simpl;
      [intros [= _ <-]; exact Hget|].
    destruct (makeSchemaInfo _ false); simpl; intros [= _ <-]; exact Hget.
Qed.

(** ** Missing tables *)

(** C7, amended. Against a keyspace without a metadata row (and without a
    cached schema), [getTableSchema] is rejected with the structured 404
    not-found error; [get] and [put] are rejected with a plain [Error]
    that has no status: "restbase-sqlite3: No schema for <keyspace>_data"
    and "Table not found!". *)
Theorem missing_table_errors domain table req r w res w1 :
  _get (keyspaceName domain table) emptyRequest (Some "meta")
    (Some infoSchemaInfo) None w = (Ok res, w1) →
  res_items res = [] →
  cached (keyspaceName domain table) w = None →
  req_table req = table →
  req_table (heap w !!! r) = table →
  getTableSchema domain table w = (Reject notFound, w1)
  ∧ get domain req w =
      (Reject (Error ("restbase-sqlite3: No schema for "
                        +:+ keyspaceName domain table +:+ "_data")),
       withCache (keyspaceName domain table) None w1)
  ∧ put domain r w =
      (Reject (Error "Table not found!"),
       withCache (keyspaceName domain table) None w1).
Proof.
  intros Hget Hitems Hcache Hreq Hobj.
  pose proof (_getSchema_none _ _ _ _ Hget Hitems) as Hschema.
  split; [|split].
  - unfold getTableSchema, then_. by rewrite Hget, Hitems.
  - unfold get. unfold_monad. rewrite Hreq, Hcache.
    rewrite Hschema. done.
  - unfold put. unfold_monad. rewrite Hobj, Hcache. rewrite Hschema.
    unfold _put. unfold_monad. simpl.
    unfold cached. simpl. by rewrite lookup_insert_eq.
Qed.

(** ** Dropping a table *)

Lemma deleteRequest_run keyspace oschema w r x :
  client_run (dropBatch keyspace (staticTableExist oschema)) (ext w) = (r, x) →
  deleteRequest keyspace oschema w =
    (promised r,
     withExt x
       (record (EvRun (dropBatch keyspace (staticTableExist oschema))) w)).
Proof.
  intros Hrun. unfold deleteRequest, clientRun, dropBatch in *.
  destruct (staticTableExist oschema); simpl in *; by rewrite Hrun.
Qed.

(** C8. [dropTable] takes the schema from the cache when it is there, and
    then deletes the cache entry before it drops; otherwise it loads the
    schema from the metadata.  It runs one batch: the drops of the index
    view, of the [meta] and of the [data] relation, followed by the drop of
    the [static] relation if and only if [dbu.staticTableExist] holds of
    the schema.  When no schema is found, and [dbu.staticTableExist]
    answers no for a missing schema, the batch is the three fixed drops. *)
Theorem dropTable_batch domain table w :
  (∀ schema r x,
     cached (keyspaceName domain table) w = Some schema →
     client_run
       (dropBatch (keyspaceName domain table) (staticTableExist (Some schema)))
       (ext w) = (r, x) →
     dropTable domain table w =
       (promised r,
        mkDB (delete (keyspaceName domain table) (schemaCache w)) (heap w) x
          (trace w
             ++ [EvRun (dropBatch (keyspaceName domain table)
                          (staticTableExist (Some schema)))])))
  ∧ (∀ oschema w1 r x,
       cached (keyspaceName domain table) w = None →
       _getSchema (keyspaceName domain table) w = (Ok oschema, w1) →
       client_run
         (dropBatch (keyspaceName domain table) (staticTableExist oschema))
         (ext w1) = (r, x) →
       dropTable domain table w =
         (promised r,
          mkDB (schemaCache w) (heap w) x
            (trace w1
               ++ [EvRun (dropBatch (keyspaceName domain table)
                            (staticTableExist oschema))])))
  ∧ (staticTableExist None = false →
     dropBatch (keyspaceName domain table) (staticTableExist None) =
       [ mkStmt ("drop view " +:+ keyspaceName domain table +:+ "_indexView") [];
         mkStmt ("drop table " +:+ keyspaceName domain table +:+ "_meta") [];
         mkStmt ("drop table " +:+ keyspaceName domain table +:+ "_data") [] ]).
Proof.
  split; [|split].
  - intros schema r x Hcache Hrun. unfold dropTable. unfold_monad.
    rewrite Hcache. simpl.
    erewrite deleteRequest_run by exact Hrun. done.
  - intros oschema w1 r x Hcache Hschema Hrun. unfold dropTable. unfold_monad.
    rewrite Hcache, Hschema.
    erewrite deleteRequest_run by exact Hrun.
    destruct (_getSchema_frame _ _ _ _ Hschema) as (Hc & Hh & _).
    unfold withExt, record. simpl. rewrite Hc, Hh. by destruct r.
  - intros ->. done.
Qed.

(** ** Objects *)

Lemma objGet_objSet_eq (o : Obj) k v : objGet (objSet k v o) k = v.
Proof.
  induction o as [|[k' v'] o IH]; simpl.
  - by rewrite String.eqb_refl.
  - destruct (String.eqb k' k) eqn:Hk; simpl; rewrite Hk; done.
Qed.

Lemma objGet_objSet_ne (o : Obj) k k' v :
  k ≠ k' → objGet (objSet k v o) k' = objGet o k'.
Proof.
  intros Hne. induction o as [|[k0 v0] o IH]; simpl.
  - by apply String.eqb_neq in Hne as ->.
  - destruct (String.eqb k0 k) eqn:Hk; simpl; [|by rewrite IH].
    apply String.eqb_eq in Hk as ->.
    by apply String.eqb_neq in Hne as ->.
Qed.

(** ** The retention step changes neither the cache nor the requests *)

Lemma _revisionPolicyUpdate_frame keyspace query schema w :
  schemaCache (_revisionPolicyUpdate keyspace query schema w).2 = schemaCache w
  ∧ heap (_revisionPolicyUpdate keyspace query schema w).2 = heap w
  ∧ ∃ evs, trace (_revisionPolicyUpdate keyspace query schema w).2
           = trace w ++ evs.
Proof.
  unfold _revisionPolicyUpdate.
  destruct (String.eqb _ "latest"); [|simpl; repeat split; by exists []; rewrite app_nil_r].
  unfold_monad. destruct (Date_getTime (ext w)) as [now x1]. simpl.
  destruct (itemKey _ _ _ _) as [e|key]; simpl;
    [repeat split; by exists []; rewrite app_nil_r|].
  match goal with
  | |- context [_get ?k ?q ?t ?s ?i ?w0] =>
      destruct (_get k q t s i w0) as [o w2] eqn:Hget
  end.
  apply _get_frame in Hget. destruct Hget as (Hc & Hh & Ht). simpl in *.
  assert (∃ evs, trace w2 = trace w ++ evs) as [evs Hevs].
  { destruct Ht as [->|(sql & params & ->)]; [exists []; by rewrite app_nil_r|eauto]. }
  destruct o as [result|e|e]; simpl; try (repeat split; eauto; done).
  destruct (Z.ltb _ _); simpl; [|repeat split; eauto; done].
  destruct (mapRows _ _) as [e|marks]; simpl; [repeat split; eauto; done|].
  destruct (client_run _ _) as [r x]. destruct r; simpl;
    (repeat split; [done|done|]; rewrite Hevs, <- app_assoc; eauto).
Qed.

(** ** Stamping the request *)

Lemma _put_stamp keyspace r table w schema req attrs used x1 s date :
  putSchema (tableOrData table) (cached keyspace w) = Some schema →
  heap w !!! r = req →
  req_attributes req = Some attrs →
  tidUsed schema attrs (ext w) = (used, x1) →
  toString used = inr s →
  TimeUuid_getDate s = inr date →
  _put keyspace r table w =
    putTail keyspace (tableOrData table) schema
      (stamped schema req attrs used date)
      (withObject r (stamped schema req attrs used date) (withExt x1 w)).
Proof.
  intros Hschema Hobj Hattrs Hused Hs Hdate.
  unfold _put, putTail, stamped, tidUsed, attribute in *. unfold_monad.
  rewrite Hschema. simpl. rewrite Hobj, Hattrs. simpl.
  destruct (truthy (objGet attrs (si_tid schema))) eqn:Htid; simpl.
  - injection Hused as <- <-. rewrite Hobj, Hattrs. simpl.
    rewrite Hs. simpl. rewrite Hdate. simpl.
    rewrite lookup_total_insert_eq.
    unfold withObject, withExt. simpl.
    destruct w as [c h x t]; simpl in *.
    destruct (buildPutQuery _ _ _ _); simpl; done.
  - destruct (TimeUuid_now (ext w)) as [uuid x'] eqn:Hnow.
    injection Hused as <- <-. simpl.
    rewrite lookup_total_insert_eq. simpl.
    rewrite Hattrs. simpl. rewrite objGet_objSet_eq. simpl in Hs |- *.
    injection Hs as <-. rewrite Hdate. simpl.
    rewrite lookup_total_insert_eq, insert_insert_eq.
    unfold withObject, withExt. simpl.
    destruct (buildPutQuery _ _ _ _); simpl; done.
Qed.

(** ** The write and the retention step *)

Lemma putTail_frame keyspace table schema req w :
  schemaCache (putTail keyspace table schema req w).2 = schemaCache w
  ∧ heap (putTail keyspace table schema req w).2 = heap w.
Proof.
  unfold putTail. destruct (buildPutQuery _ _ _ _) as [e|pq]; [done|].
  unfold_monad. destruct (client_run _ _) as [[e|[]] x]; simpl; [done|].
  destruct (String.eqb table "data"); simpl; [|done].
  destruct (_revisionPolicyUpdate_frame keyspace req schema
              (withExt x (record (EvRun (putBatch pq)) w))) as (Hc & Hh & _).
  destruct (_revisionPolicyUpdate _ _ _ _) as [[[]|e|e] w3]; simpl in *; done.
Qed.

(** The write itself: one batch; when it fails, nothing follows. *)
Lemma putTail_run keyspace table schema req w pq r x :
  buildPutQuery req keyspace table schema = inr pq →
  client_run (putBatch pq) (ext w) = (r, x) →
  putTail keyspace table schema req w =
    match r with
    | inl e => (Reject e, withExt x (record (EvRun (putBatch pq)) w))
    | inr _ =>
        if String.eqb table "data"
        then
          let ow := _revisionPolicyUpdate keyspace req schema
                      (withExt x (record (EvRun (putBatch pq)) w)) in
          (match ow.1 with
           | Throw e => Reject e
           | _ => Ok (mkAck 201)
           end, ow.2)
        else (Ok (mkAck 201), withExt x (record (EvRun (putBatch pq)) w))
    end.
Proof.
  intros Hpq Hrun. unfold putTail. rewrite Hpq. unfold_monad. rewrite Hrun.
  destruct r as [e|[]]; simpl; [done|].
  destruct (String.eqb table "data"); simpl; [|done].
  by destruct (_revisionPolicyUpdate _ _ _ _) as [[[]|e|e] w3].
Qed.

Lemma putTail_trace keyspace table schema req w pq :
  buildPutQuery req keyspace table schema = inr pq →
  ∃ evs, trace (putTail keyspace table schema req w).2
         = trace w ++ EvRun (putBatch pq) :: evs.
Proof.
  intros Hpq. destruct (client_run (putBatch pq) (ext w)) as [r x] eqn:Hrun.
  rewrite (putTail_run _ _ _ _ _ _ _ _ Hpq Hrun).
  destruct r as [e|[]]; simpl; [by exists []|].
  destruct (String.eqb table "data"); simpl; [|by exists []].
  destruct (_revisionPolicyUpdate_frame keyspace req schema
              (withExt x (record (EvRun (putBatch pq)) w)))
    as (_ & _ & evs & Hevs).
  exists evs. rewrite Hevs. simpl. by rewrite <- app_assoc.
Qed.



Lemma itemKey_total tid iKeys attrs acc :
  ∃ key, itemKey tid iKeys (Some attrs) acc = inr key.
Proof.
  revert acc. induction iKeys as [|k iKeys IH]; intros acc; simpl; [eauto|].
  destruct (String.eqb k tid); eauto.
Qed.


(** ** The version identifier of a write *)


(** C9. [put] changes the request object of its caller: when the request
    has no (truthy) value for the schema's [tid] attribute, the new time
    UUID is stored in [request.attributes]; in every case
    [request.timestamp] becomes the date decoded from the [tid] used.  The
    object is left so when the call has ended, whatever became of the
    write. *)
Theorem put_mutates_request domain r w w1 schema req attrs used x1 s date :
  heap w !!! r = req →
  req_attributes req = Some attrs →
  (cached (keyspaceName domain (req_table req)) w = Some schema ∧ w1 = w)
  ∨ (cached (keyspaceName domain (req_table req)) w = None
     ∧ _getSchema (keyspaceName domain (req_table req)) w
       = (Ok (Some schema), w1)) →
  tidUsed schema attrs (ext w1) = (used, x1) →
  toString used = inr s →
  TimeUuid_getDate s = inr date →
  heap (put domain r w).2 !! r = Some (stamped schema req attrs used date)
  ∧ req_attributes (stamped schema req attrs used date)
    = Some (if truthy (objGet attrs (si_tid schema)) then attrs
            else objSet (si_tid schema) used attrs)
  ∧ (truthy (objGet attrs (si_tid schema)) = false →
     used = JStr (TimeUuid_now (ext w1)).1)
  ∧ req_timestamp (stamped schema req attrs used date) = Some date.
Proof.
  intros Hobj Hattrs Hschema Hused Hs Hdate.
  split; [|repeat split].
  - unfold put. unfold_monad. rewrite Hobj.
    destruct Hschema as [[Hc ->]|[Hc Hload]]; rewrite Hc.
    + assert (putSchema (tableOrData None)
                (cached (keyspaceName domain (req_table req)) w) = Some schema)
        as Hps by (by rewrite Hc).
      rewrite (_put_stamp _ _ _ _ _ _ _ _ _ _ _ Hps Hobj Hattrs Hused Hs Hdate).
      destruct (putTail_frame (keyspaceName domain (req_table req)) "data"
                  schema (stamped schema req attrs used date)
                  (withObject r (stamped schema req attrs used date)
                     (withExt x1 w))) as [_ Hheap].
      simpl in *. rewrite Hheap. by rewrite lookup_insert_eq.
    + rewrite Hload. destruct (_getSchema_frame _ _ _ _ Hload) as (_ & Hh & _).
      simpl.
      assert (putSchema (tableOrData None)
                (cached (keyspaceName domain (req_table req))
                   (withCache (keyspaceName domain (req_table req))
                      (Some schema) w1)) = Some schema) as Hps.
      { unfold cached. simpl. by rewrite lookup_insert_eq. }
      assert (heap (withCache (keyspaceName domain (req_table req))
                      (Some schema) w1) !!! r = req) as Hobj1.
      { simpl. by rewrite Hh. }
      pose proof (_put_stamp _ _ _ _ _ _ _ _ _ _ _
                    Hps Hobj1 Hattrs Hused Hs Hdate) as Hput.
      unfold withCache in Hput at 1. simpl in Hput. rewrite Hput.
      match goal with
      | |- context [putTail ?k ?t ?sc ?rq ?w0] =>
          destruct (putTail_frame k t sc rq w0) as [_ Hheap];
          destruct (putTail k t sc rq w0) as [o w3]
      end.
      simpl in *. rewrite Hheap. by rewrite lookup_insert_eq.
  - unfold stamped. destruct (truthy _); simpl; [done|]. by rewrite Hattrs.
  - intros Htid. unfold tidUsed in Hused. rewrite Htid in Hused.
    destruct (TimeUuid_now (ext w1)). by injection Hused as <- _.
Qed.

(** ** Retention *)

Lemma stamped_attributes schema req attrs used date :
  req_attributes req = Some attrs →
  req_attributes (stamped schema req attrs used date)
  = Some (if truthy (objGet attrs (si_tid schema)) then attrs
          else objSet (si_tid schema) used attrs).
Proof.
  intros Hattrs. unfold stamped. destruct (truthy _); simpl; [done|].
  by rewrite Hattrs.
Qed.


(** ** Creating a table *)

Lemma putTail_ack keyspace table schema req w a w' :
  putTail keyspace table schema req w = (Ok a, w') → a = mkAck 201.
Proof.
  unfold putTail. unfold_monad.
  destruct (buildPutQuery _ _ _ _); [done|].
  destruct (client_run _ _) as [[e|[]] x]; simpl; [done|].
  destruct (String.eqb table "data"); simpl.
  - destruct (_revisionPolicyUpdate _ _ _ _) as [[[]|e|e] w3]; simpl;
      by intros [= <- _].
  - by intros [= <- _].
Qed.

Lemma _put_ack keyspace r table w a w' :
  _put keyspace r table w = (Ok a, w') → a = mkAck 201.
Proof.
  unfold _put. unfold_monad. intros H.
  repeat (case_match; simplify_eq/=; try done).
Qed.

Lemma createTable_ack domain decl w a w' :
  createTable domain decl w = (Ok a, w') → a = mkAck 201.
Proof.
  unfold createTable, tryNewMigrator, newMigrator, _createTable.
  unfold_monad. intros H.
  repeat (case_match; simplify_eq/=; try done);
    match goal with
    | H : settled (settled ?o) = Ok _ |- _ => destruct o; simplify_eq/=
    end;
    eauto using _put_ack.
Qed.

(** [createTable] up to the decision between creating, migrating and
    leaving the table as it is. *)
Lemma createTable_current domain decl t w current w1 normal info :
  d_table decl = Some t → t ≠ "" →
  _getSchema (keyspaceName domain (d_table decl)) w = (Ok (Some current), w1) →
  validateAndNormalizeSchema decl = inr normal →
  makeSchemaInfo normal false = inr info →
  createTable domain decl w =
    if negb (String.eqb (si_hash current) (si_hash info))
    then
      match newSchemaMigrator decl (keyspaceName domain (d_table decl))
              current info (ext w1) with
      | Some e =>
          (Reject (cannotUpgrade (keyspaceName domain (d_table decl))
                     info e),
           record
             (EvNewMigrator
                (mkMigrator decl (keyspaceName domain (d_table decl))
                   current info)) w1)
      | None =>
          let m := mkMigrator decl (keyspaceName domain (d_table decl))
                     current info in
          let '(r, x) := migrate m (ext w1) in
          let w2 := withExt x (record (EvMigrate m) (record (EvNewMigrator m) w1)) in
          match r with
          | inl e =>
              (Reject e, record (EvLog "error/cassandra/table_update" e) w2)
          | inr _ =>
              let '(o, w3) :=
                persistSchema (keyspaceName domain (d_table decl)) normal
                  info w2 in
              (settled o, w3)
          end
      end
    else (Ok (mkAck 201), w1).
Proof.
  intros Ht Hne Hload Hvalid Hinfo. unfold createTable. rewrite Ht.
  destruct t as [|c t]; [done|]. rewrite <- Ht.
  unfold then_ at 1. rewrite Hload. unfold_monad.
  rewrite Hvalid. simpl. rewrite Hinfo. simpl.
  destruct (negb _); [|done].
  unfold tryNewMigrator, newMigrator.
  destruct (newSchemaMigrator _ _ _ _ _) as [e|]; [done|]. simpl.
  destruct (migrate _ _) as [[e|[]] x]; simpl; [done|].
  unfold persistSchema. simpl.
  by destruct (_put _ _ _ _) as [[a|e|e] w3].
Qed.

Lemma _getSchema_ok_trace keyspace w oschema w1 :
  _getSchema keyspace w = (Ok oschema, w1) →
  schemaCache w1 = schemaCache w ∧ heap w1 = heap w ∧
  ∃ q, buildGetQuery keyspace emptyRequest "meta" infoSchemaInfo None = inr q
       ∧ trace w1 = trace w ++ [EvAll (st_sql q) (st_params q)].
Proof.
  intros Hload.
  destruct (_getSchema_frame _ _ _ _ Hload) as (Hc & Hh & _).
  split; [done|]. split; [done|].
  revert Hload. unfold _getSchema, then_.
  destruct (buildGetQuery keyspace emptyRequest "meta" infoSchemaInfo None)
    as [e|q] eqn:Hq.
  - by rewrite (_get_throw keyspace emptyRequest (Some "meta") _ None w e Hq).
  - destruct (client_all (st_sql q) (st_params q) (ext w)) as [r x] eqn:Hall.
    rewrite (_get_run keyspace emptyRequest (Some "meta") _ None w q r x Hq Hall).
    intros Hload. exists q. split; [done|].
    destruct (getOutcome _ _ _) as [res|e|e]; [|done|done].
    destruct (res_items res); unfold_monad; simpl in *.
    + by injection Hload as _ <-.
    + repeat (case_match; simplify_eq/=; try done).
Qed.

(** The metadata write of [createTable]. *)
Lemma persistSchema_run keyspace normal info w used x1 s date pq r x2 :
  tidUsed infoSchemaInfo
    [("key", JStr "schema"); ("value", JStr (JSON_stringify normal))] (ext w)
    = (used, x1) →
  toString used = inr s →
  TimeUuid_getDate s = inr date →
  buildPutQuery
    (stamped infoSchemaInfo (schemaRow normal)
       [("key", JStr "schema"); ("value", JStr (JSON_stringify normal))]
       used date)
    keyspace "meta" infoSchemaInfo = inr pq →
  client_run (putBatch pq) x1 = (r, x2) →
  persistSchema keyspace normal info w =
    (match r with inl e => Reject e | inr _ => Ok (mkAck 201) end,
     mkDB (<[keyspace := Some info]> (schemaCache w))
       (<[fresh (dom (heap w)) :=
            stamped infoSchemaInfo (schemaRow normal)
              [("key", JStr "schema"); ("value", JStr (JSON_stringify normal))]
              used date]> (heap w))
       x2 (trace w ++ [EvRun (putBatch pq)])).
Proof.
  intros Hused Hs Hdate Hpq Hrun. unfold persistSchema.
  erewrite (_put_stamp keyspace _ (Some "meta") _ infoSchemaInfo
              (schemaRow normal) _ used x1 s date);
    [|done|simpl; by rewrite lookup_total_insert_eq|done|done|done|done].
  simpl.
  erewrite (putTail_run keyspace "meta" infoSchemaInfo _ _ pq r x2);
    [|done|done].
  unfold withExt, record, withObject. simpl. rewrite insert_insert_eq.
  by destruct r as [e|[]].
Qed.

(** C2, amended. When a schema is stored and its hash equals the hash of
    the schema requested, [createTable] only reads the metadata: it runs
    no statement, invokes no migration, writes no metadata row and leaves
    the cache as it is.  It resolves to [{status: 201}], the status that
    every [createTable] that succeeds resolves to, the creating one
    included. *)
Theorem createTable_same_schema domain decl t w current w1 normal info :
  d_table decl = Some t → t ≠ "" →
  _getSchema (keyspaceName domain (d_table decl)) w = (Ok (Some current), w1) →
  validateAndNormalizeSchema decl = inr normal →
  makeSchemaInfo normal false = inr info →
  si_hash current = si_hash info →
  createTable domain decl w = (Ok (mkAck 201), w1)
  ∧ schemaCache w1 = schemaCache w
  ∧ heap w1 = heap w
  ∧ (∃ q, buildGetQuery (keyspaceName domain (d_table decl)) emptyRequest
            "meta" infoSchemaInfo None = inr q
          ∧ trace w1 = trace w ++ [EvAll (st_sql q) (st_params q)])
  ∧ (∀ w0 a w0', createTable domain decl w0 = (Ok a, w0') → a = mkAck 201).
Proof.
  intros Ht Hne Hload Hvalid Hinfo Hhash.
  destruct (_getSchema_ok_trace _ _ _ _ Hload) as (Hc & Hh & Htrace).
  repeat split; try done.
  - rewrite (createTable_current _ _ _ _ _ _ _ _ Ht Hne Hload Hvalid Hinfo).
    by rewrite Hhash, String.eqb_refl.
  - intros w0 a w0'. apply createTable_ack.
Qed.

(** C3, amended. When a schema is stored and its hash differs from the hash
    of the schema requested, [createTable] constructs one [SchemaMigrator]
    from the stored and the requested schema.  If the construction throws,
    the call is rejected with the structured 400 error that carries the
    keyspace and the requested schema, and [migrate] is not called.  If
    [migrate] is rejected, the failure is logged and the call is rejected
    with that same failure.  In both cases nothing is written and the cache
    is as before.  If [migrate] resolves, the cache entry of the keyspace
    becomes the requested schema and the normalized schema is written to
    [meta] under the key "schema". *)
Theorem createTable_migrates domain decl t w current w1 normal info :
  d_table decl = Some t → t ≠ "" →
  _getSchema (keyspaceName domain (d_table decl)) w = (Ok (Some current), w1) →
  validateAndNormalizeSchema decl = inr normal →
  makeSchemaInfo normal false = inr info →
  si_hash current ≠ si_hash info →
  (∃ q, trace w1 = trace w ++ [EvAll (st_sql q) (st_params q)])
  ∧ (∀ e,
       newSchemaMigrator decl (keyspaceName domain (d_table decl)) current info
         (ext w1) = Some e →
       createTable domain decl w =
         (Reject
            (HTTPError 400
               (mkBody "bad_request"
                  ("The table already exists, and its schema cannot be upgraded to the requested schema ("
                     +:+ errorToString e +:+ ").")
                  (Some (keyspaceName domain (d_table decl))) (Some info))),
          mkDB (schemaCache w) (heap w) (ext w1)
            (trace w1
               ++ [EvNewMigrator
                     (mkMigrator decl (keyspaceName domain (d_table decl))
                        current info)])))
  ∧ (newSchemaMigrator decl (keyspaceName domain (d_table decl)) current info
       (ext w1) = None →
     ∀ e x,
       migrate
         (mkMigrator decl (keyspaceName domain (d_table decl)) current info)
         (ext w1) = (inl e, x) →
       createTable domain decl w =
         (Reject e,
          mkDB (schemaCache w) (heap w) x
            (trace w1
               ++ [EvNewMigrator
                     (mkMigrator decl (keyspaceName domain (d_table decl))
                        current info);
                   EvMigrate
                     (mkMigrator decl (keyspaceName domain (d_table decl))
                        current info);
                   EvLog "error/cassandra/table_update" e])))
  ∧ (newSchemaMigrator decl (keyspaceName domain (d_table decl)) current info
       (ext w1) = None →
     ∀ x used x1 s date pq r x2,
       migrate
         (mkMigrator decl (keyspaceName domain (d_table decl)) current info)
         (ext w1) = (inr tt, x) →
       tidUsed infoSchemaInfo
         [("key", JStr "schema"); ("value", JStr (JSON_stringify normal))] x
         = (used, x1) →
       toString used = inr s →
       TimeUuid_getDate s = inr date →
       buildPutQuery
         (stamped infoSchemaInfo (schemaRow normal)
            [("key", JStr "schema"); ("value", JStr (JSON_stringify normal))]
            used date)
         (keyspaceName domain (d_table decl)) "meta" infoSchemaInfo = inr pq →
       client_run (putBatch pq) x1 = (r, x2) →
       createTable domain decl w =
         (match r with inl e => Reject e | inr _ => Ok (mkAck 201) end,
          mkDB
            (<[keyspaceName domain (d_table decl) := Some info]> (schemaCache w))
            (<[fresh (dom (heap w)) :=
                 stamped infoSchemaInfo (schemaRow normal)
                   [("key", JStr "schema");
                    ("value", JStr (JSON_stringify normal))]
                   used date]> (heap w))
            x2
            (trace w1
               ++ [EvNewMigrator
                     (mkMigrator decl (keyspaceName domain (d_table decl))
                        current info);
                   EvMigrate
                     (mkMigrator decl (keyspaceName domain (d_table decl))
                        current info);
                   EvRun (putBatch pq)]))
       ∧ (si_tid infoSchemaInfo = "tid" →
          req_attributes
            (stamped infoSchemaInfo (schemaRow normal)
               [("key", JStr "schema");
                ("value", JStr (JSON_stringify normal))]
               used date)
          = Some [("key", JStr "schema");
                  ("value", JStr (JSON_stringify normal));
                  ("tid", JStr (TimeUuid_now x).1)])).
Proof.
  intros Ht Hne Hload Hvalid Hinfo Hhash.
  destruct (_getSchema_ok_trace _ _ _ _ Hload) as (Hc & Hh & q & _ & Htrace).
  rewrite (createTable_current _ _ _ _ _ _ _ _ Ht Hne Hload Hvalid Hinfo).
  apply String.eqb_neq in Hhash. rewrite Hhash. simpl.
  split; [eauto|]. split; [|split].
  - intros e ->. unfold cannotUpgrade, record. simpl. by rewrite Hc, Hh.
  - intros -> e x ->. unfold record, withExt. simpl.
    by rewrite Hc, Hh, <- !app_assoc.
  - intros -> x used x1 s date pq r x2 -> Hused Hs Hdate Hpq Hrun.
    split.
    + erewrite persistSchema_run; [|exact Hused|done|done|done|exact Hrun].
      simpl. rewrite Hc, Hh, <- !app_assoc. by destruct r.
    + intros Htid. unfold stamped, tidUsed in *. rewrite Htid in *.
      simpl in *. destruct (TimeUuid_now x) as [uuid x'].
      by injection Hused as <- _.
Qed.

(** * Further properties *)

(** ** What the operations leave alone *)

(** [_put] either throws before it builds a statement, or goes on as
    [putTail]; up to there it has changed nothing but the attributes and
    the timestamp of the object behind [r], and the state of the
    collaborators. *)
Lemma _put_cases keyspace r table w :
  (∃ e w', _put keyspace r table w = (Throw e, w')
           ∧ schemaCache w' = schemaCache w ∧ trace w' = trace w
           ∧ (∀ r', r' ≠ r → heap w' !! r' = heap w !! r')
           ∧ req_table (heap w' !!! r) = req_table (heap w !!! r))
  ∨ (∃ schema req' w0,
       _put keyspace r table w
       = putTail keyspace (tableOrData table) schema req' w0
       ∧ schemaCache w0 = schemaCache w ∧ trace w0 = trace w
       ∧ (∀ r', r' ≠ r → heap w0 !! r' = heap w !! r')
       ∧ req_table (heap w0 !!! r) = req_table (heap w !!! r)).
Proof.
  destruct (putSchema (tableOrData table) (cached keyspace w))
    as [schema|] eqn:Hschema.
  2: { left. exists (Error "Table not found!"), w.
       unfold _put. unfold_monad. by rewrite Hschema. }
  destruct (req_attributes (heap w !!! r)) as [attrs|] eqn:Hattrs.
  2: { left. eexists _, w. unfold _put, attribute. unfold_monad.
       rewrite Hschema. simpl. by rewrite Hattrs. }
  destruct (tidUsed schema attrs (ext w)) as [used x1] eqn:Hused.
  destruct (toString used) as [e|s] eqn:Hs.
  { left. unfold _put, attribute, tidUsed in *. unfold_monad.
    rewrite Hschema. simpl. rewrite Hattrs. simpl.
    destruct (truthy _); simpl.
    - injection Hused as <- <-. rewrite Hattrs. simpl. rewrite Hs.
      by eexists _, _.
    - destruct (TimeUuid_now (ext w)). by injection Hused as <- <-. }
  destruct (TimeUuid_getDate s) as [e|date] eqn:Hdate.
  { left. unfold _put, attribute, tidUsed in *. unfold_monad.
    rewrite Hschema. simpl. rewrite Hattrs. simpl.
    destruct (truthy _); simpl.
    - injection Hused as <- <-. rewrite Hattrs. simpl. rewrite Hs. simpl.
      rewrite Hdate. by eexists _, _.
    - destruct (TimeUuid_now (ext w)). injection Hused as <- <-. simpl.
      rewrite lookup_total_insert_eq. simpl. rewrite Hattrs. simpl.
      rewrite objGet_objSet_eq. simpl in Hs |- *. injection Hs as <-.
      rewrite Hdate. eexists _, _. split; [done|]. simpl.
      split; [done|]. split; [done|]. split.
      + intros r' Hr'. by rewrite lookup_insert_ne.
      + by rewrite lookup_total_insert_eq. }
  right. eexists schema, _, _. split.
  - by apply (_put_stamp keyspace r table w schema (heap w !!! r) attrs used
                x1 s date).
  - simpl. split; [done|]. split; [done|]. split.
    + intros r' Hr'. by rewrite lookup_insert_ne.
    + rewrite lookup_total_insert_eq. unfold stamped.
      by destruct (truthy _).
Qed.

Lemma putTail_grows keyspace table schema req w :
  ∃ evs, trace (putTail keyspace table schema req w).2 = trace w ++ evs.
Proof.
  destruct (buildPutQuery req keyspace table schema) as [e|pq] eqn:Hpq.
  - unfold putTail. rewrite Hpq. exists []. by rewrite app_nil_r.
  - destruct (putTail_trace keyspace table schema req w pq Hpq) as [evs ->].
    eauto.
Qed.

Lemma _put_frame keyspace r table w :
  schemaCache (_put keyspace r table w).2 = schemaCache w
  ∧ (∀ r', r' ≠ r → heap (_put keyspace r table w).2 !! r' = heap w !! r')
  ∧ ∃ evs, trace (_put keyspace r table w).2 = trace w ++ evs.
Proof.
  destruct (_put_cases keyspace r table w)
    as [(e & w' & -> & Hc & Ht & Hh & _)
       |(schema & req' & w0 & -> & Hc & Ht & Hh & _)].
  - simpl. repeat split; [done|done|]. exists []. by rewrite app_nil_r.
  - destruct (putTail_frame keyspace (tableOrData table) schema req' w0)
      as [-> ->].
    destruct (putTail_grows keyspace (tableOrData table) schema req' w0)
      as [evs ->].
    rewrite Ht. eauto.
Qed.

Lemma _put_table keyspace r table w :
  req_table (heap (_put keyspace r table w).2 !!! r)
  = req_table (heap w !!! r).
Proof.
  destruct (_put_cases keyspace r table w)
    as [(e & w' & -> & _ & _ & _ & Ht)
       |(schema & req' & w0 & -> & _ & _ & _ & Ht)]; [done|].
  destruct (putTail_frame keyspace (tableOrData table) schema req' w0)
    as [_ ->].
  done.
Qed.

(** ** Creating a table that is not there *)

(** [createTable] when no schema is stored, up to the metadata write. *)
Lemma createTable_new domain decl t w w1 normal info :
  d_table decl = Some t → t ≠ "" →
  _getSchema (keyspaceName domain (d_table decl)) w = (Ok None, w1) →
  validateAndNormalizeSchema decl = inr normal →
  makeSchemaInfo normal false = inr info →
  createTable domain decl w =
    match si_attributes info with
    | None =>
        (Reject (Error ("No attribute definitions for table "
                          +:+ keyspaceName domain (d_table decl))), w1)
    | Some _ =>
        let batch := createBatch (keyspaceName domain (d_table decl)) info in
        let '(r, x) := client_run batch (ext w1) in
        let w2 := withExt x (record (EvRun batch) w1) in
        match r with
        | inl e => (Reject e, w2)
        | inr _ =>
            let '(o, w3) :=
              persistSchema (keyspaceName domain (d_table decl)) normal info w2
            in (settled o, w3)
        end
    end.
Proof.
  intros Ht Hne Hload Hvalid Hinfo. unfold createTable. rewrite Ht.
  destruct t as [|c t]; [done|]. rewrite <- Ht.
  unfold then_ at 1. rewrite Hload. unfold_monad.
  rewrite Hvalid. simpl. rewrite Hinfo. simpl.
  unfold _createTable, createBatch. unfold_monad.
  destruct (si_attributes info); [|done]. simpl.
  destruct (client_run _ _) as [[e|[]] x]; simpl; [done|].
  unfold persistSchema. simpl.
  by destruct (_put _ _ _ _) as [[a|e|e] w3].
Qed.

Lemma persistSchema_cache keyspace normal info w :
  schemaCache (persistSchema keyspace normal info w).2
  = <[keyspace := Some info]> (schemaCache w).
Proof.
  unfold persistSchema.
  match goal with
  | |- context [_put ?k ?r ?t ?w0] =>
      destruct (_put_frame k r t w0) as (-> & _ & _)
  end.
  done.
Qed.

(** X1. When no schema is stored for the keyspace, [createTable] runs one
    batch that creates the [data] relation, the [meta] relation, the
    [static] relation and the index view, in this order.  If the batch is
    rejected, the call is rejected with the same failure, the cache is as
    before and nothing is written to [meta].  If it resolves, the cache
    entry of the keyspace becomes the requested schema and the normalized
    schema is written to [meta]; the call resolves to [{status: 201}] when
    that write resolves, and is rejected with its failure otherwise. *)
Theorem createTable_new_table domain decl t w w1 normal info attrs :
  d_table decl = Some t → t ≠ "" →
  _getSchema (keyspaceName domain (d_table decl)) w = (Ok None, w1) →
  validateAndNormalizeSchema decl = inr normal →
  makeSchemaInfo normal false = inr info →
  si_attributes info = Some attrs →
  (∀ e x,
     client_run (createBatch (keyspaceName domain (d_table decl)) info) (ext w1)
       = (inl e, x) →
     createTable domain decl w =
       (Reject e,
        mkDB (schemaCache w) (heap w) x
          (trace w1
             ++ [EvRun (createBatch (keyspaceName domain (d_table decl)) info)])))
  ∧ (∀ x used x1 s date pq r x2,
       client_run (createBatch (keyspaceName domain (d_table decl)) info)
         (ext w1) = (inr tt, x) →
       tidUsed infoSchemaInfo (schemaAttributes normal) x = (used, x1) →
       toString used = inr s →
       TimeUuid_getDate s = inr date →
       buildPutQuery
         (stamped infoSchemaInfo (schemaRow normal) (schemaAttributes normal)
            used date)
         (keyspaceName domain (d_table decl)) "meta" infoSchemaInfo = inr pq →
       client_run (putBatch pq) x1 = (r, x2) →
       createTable domain decl w =
         (match r with inl e => Reject e | inr _ => Ok (mkAck 201) end,
          mkDB
            (<[keyspaceName domain (d_table decl) := Some info]> (schemaCache w))
            (<[fresh (dom (heap w)) :=
                 stamped infoSchemaInfo (schemaRow normal)
                   (schemaAttributes normal) used date]> (heap w))
            x2
            (trace w1
               ++ [EvRun (createBatch (keyspaceName domain (d_table decl)) info);
                   EvRun (putBatch pq)]))).
Proof.
  intros Ht Hne Hload Hvalid Hinfo Hattrs.
  destruct (_getSchema_ok_trace _ _ _ _ Hload) as (Hc & Hh & _).
  rewrite (createTable_new _ _ _ _ _ _ _ Ht Hne Hload Hvalid Hinfo), Hattrs.
  cbv zeta. split.
  - intros e x ->. unfold withExt, record. simpl. by rewrite Hc, Hh.
  - intros x used x1 s date pq r x2 -> Hused Hs Hdate Hpq Hrun.
    unfold schemaAttributes in *.
    erewrite persistSchema_run; [|exact Hused|done|done|done|exact Hrun].
    simpl. rewrite Hc, Hh, <- !app_assoc. by destruct r.
Qed.

(** X2. A declared schema that the validation refuses, that cannot be
    compiled, or (when no schema is stored) that compiles to a schema
    without attributes, makes [createTable] reject after the metadata has
    been read: with the error of [dbu.validateAndNormalizeSchema] or of
    [dbu.makeSchemaInfo], or with "No attribute definitions for table
    <keyspace>".  Nothing is run, migrated or written, and the cache is as
    before. *)
Theorem createTable_invalid_schema domain decl t w current w1 :
  d_table decl = Some t → t ≠ "" →
  _getSchema (keyspaceName domain (d_table decl)) w = (Ok current, w1) →
  (schemaCache w1 = schemaCache w ∧ heap w1 = heap w
   ∧ ∃ q, trace w1 = trace w ++ [EvAll (st_sql q) (st_params q)])
  ∧ (∀ e, validateAndNormalizeSchema decl = inl e →
          createTable domain decl w = (Reject e, w1))
  ∧ (∀ normal e,
       validateAndNormalizeSchema decl = inr normal →
       makeSchemaInfo normal false = inl e →
       createTable domain decl w = (Reject e, w1))
  ∧ (∀ normal info,
       validateAndNormalizeSchema decl = inr normal →
       makeSchemaInfo normal false = inr info →
       current = None →
       si_attributes info = None →
       createTable domain decl w =
         (Reject (Error ("No attribute definitions for table "
                           +:+ keyspaceName domain (d_table decl))), w1)).
Proof.
  intros Ht Hne Hload.
  destruct (_getSchema_ok_trace _ _ _ _ Hload) as (Hc & Hh & q & _ & Htrace).
  split; [eauto|].
  split; [|split].
  - intros e Hvalid. unfold createTable. rewrite Ht.
    destruct t as [|c t]; [done|]. rewrite <- Ht.
    unfold then_ at 1. rewrite Hload. unfold_monad. by rewrite Hvalid.
  - intros normal e Hvalid Hinfo. unfold createTable. rewrite Ht.
    destruct t as [|c t]; [done|]. rewrite <- Ht.
    unfold then_ at 1. rewrite Hload. unfold_monad. rewrite Hvalid. simpl.
    by rewrite Hinfo.
  - intros normal info Hvalid Hinfo -> Hattrs.
    rewrite (createTable_new _ _ _ _ _ _ _ Ht Hne Hload Hvalid Hinfo).
    by rewrite Hattrs.
Qed.

(** ** The stored schema *)

Lemma _getSchema_reads keyspace w q r x :
  buildGetQuery keyspace emptyRequest "meta" infoSchemaInfo None = inr q →
  client_all (st_sql q) (st_params q) (ext w) = (r, x) →
  _get keyspace emptyRequest (Some "meta") (Some infoSchemaInfo) None w
  = (getOutcome infoSchemaInfo emptyRequest r,
     withExt x (record (EvAll (st_sql q) (st_params q)) w)).
Proof.
  intros Hq Hall.
  by apply (_get_run keyspace emptyRequest (Some "meta") infoSchemaInfo None).
Qed.

(** X4. For [_getSchema] a keyspace has no schema when the query on its
    [meta] relation returns nothing, returns an empty array, or fails with
    an SQLITE_ERROR failure (the relation is not there): it resolves to
    [null].  Any other failure of the query rejects [_getSchema] with that
    failure; it is not taken for a missing schema. *)
Theorem _getSchema_absent keyspace w q r x :
  buildGetQuery keyspace emptyRequest "meta" infoSchemaInfo None = inr q →
  client_all (st_sql q) (st_params q) (ext w) = (r, x) →
  (r = inr AllAbsent ∨ r = inr (AllRows [])
   ∨ (∃ e, r = inl e ∧ isSqliteError e = true) →
   _getSchema keyspace w
   = (Ok None, withExt x (record (EvAll (st_sql q) (st_params q)) w)))
  ∧ (∀ e, r = inl e → isSqliteError e = false →
          _getSchema keyspace w
          = (Reject e, withExt x (record (EvAll (st_sql q) (st_params q)) w))).
Proof.
  intros Hq Hall. unfold _getSchema, then_.
  rewrite (_getSchema_reads _ _ _ _ _ Hq Hall).
  split.
  - intros [->|[->|(e & -> & He)]]; simpl; [done|done|]. by rewrite He.
  - intros e -> He. simpl. by rewrite He.
Qed.

(** X5. [getTableSchema] and [_getSchema] read the same row: when
    [getTableSchema] resolves, its status is 200 and [_getSchema] in the
    same state compiles the very schema that it returns.  When
    [_getSchema] resolves to [null], [getTableSchema] is rejected with the
    404 error; every other rejection of [getTableSchema] is a rejection of
    [_getSchema] too. *)
Theorem getTableSchema_agrees domain table w :
  (∀ ts w1,
     getTableSchema domain table w = (Ok ts, w1) →
     ts_status ts = 200
     ∧ _getSchema (keyspaceName domain table) w
       = (match makeSchemaInfo (ts_schema ts) false with
          | inl e => Reject e
          | inr info => Ok (Some info)
          end, w1))
  ∧ (∀ w1,
       _getSchema (keyspaceName domain table) w = (Ok None, w1) →
       getTableSchema domain table w = (Reject notFound, w1))
  ∧ (∀ e w1,
       getTableSchema domain table w = (Reject e, w1) →
       (e = notFound
        ∧ _getSchema (keyspaceName domain table) w = (Ok None, w1))
       ∨ _getSchema (keyspaceName domain table) w = (Reject e, w1)).
Proof.
  unfold getTableSchema, _getSchema, then_.
  destruct (_get (keyspaceName domain table) emptyRequest (Some "meta")
              (Some infoSchemaInfo) None w) as [[res|e|e] w0].
  2,3: split; [done|]; split; [done|]; intros e' w1 [= <- <-]; by right.
  destruct (res_items res) as [|item rest]; unfold_monad.
  - split; [done|]. split.
    + by intros w1 [= <-].
    + intros e w1 [= <- <-]. by left.
  - destruct (JSON_parse (objGet item "value")) as [e|d]; simpl.
    + split; [done|]. split; [done|]. intros e' w1 [= <- <-]. by right.
    + split; [|split].
      * intros ts w1 [= <- <-]. simpl. split; [done|].
        by destruct (makeSchemaInfo d false).
      * intros w1. by destruct (makeSchemaInfo d false).
      * done.
Qed.

(** ** Reading through the cache *)

Lemma get_hit domain req w schema :
  cached (keyspaceName domain (req_table req)) w = Some schema →
  get domain req w
  = _get (keyspaceName domain (req_table req)) req (Some "data") (Some schema)
      None w.
Proof. intros Hc. unfold get. unfold_monad. by rewrite Hc. Qed.

Lemma get_miss domain req w oschema w1 :
  cached (keyspaceName domain (req_table req)) w = None →
  _getSchema (keyspaceName domain (req_table req)) w = (Ok oschema, w1) →
  get domain req w
  = let '(o, w2) :=
      _get (keyspaceName domain (req_table req)) req (Some "data") oschema
        None (withCache (keyspaceName domain (req_table req)) oschema w1) in
    (settled o, w2).
Proof. intros Hc Hload. unfold get. unfold_monad. by rewrite Hc, Hload. Qed.

(** X6. A [get] that finds no schema in the cache and loads one from the
    metadata leaves it in the cache; a later [get] on the same table goes
    straight to the data relation with that schema: it makes one call of
    the engine at most, and does not read the metadata again. *)
Theorem get_caches_schema domain req w schema w1 :
  cached (keyspaceName domain (req_table req)) w = None →
  _getSchema (keyspaceName domain (req_table req)) w = (Ok (Some schema), w1) →
  cached (keyspaceName domain (req_table req)) (get domain req w).2
  = Some schema
  ∧ ∀ req',
      req_table req' = req_table req →
      get domain req' (get domain req w).2
      = _get (keyspaceName domain (req_table req)) req' (Some "data")
          (Some schema) None (get domain req w).2
      ∧ ∃ evs,
          trace (get domain req' (get domain req w).2).2
          = trace (get domain req w).2 ++ evs
          ∧ (length evs ≤ 1)%nat.
Proof.
  intros Hc Hload.
  assert (cached (keyspaceName domain (req_table req)) (get domain req w).2
          = Some schema) as Hcached.
  { rewrite (get_miss _ _ _ _ _ Hc Hload).
    match goal with
    | |- context [_get ?k ?q ?t ?s ?i ?w0] =>
        destruct (_get k q t s i w0) as [o w2] eqn:Hget
    end.
    apply _get_frame in Hget as (Hc2 & _ & _). simpl in *.
    unfold cached. rewrite Hc2. by rewrite lookup_insert_eq. }
  split; [done|]. intros req' Hreq'.
  assert (get domain req' (get domain req w).2
          = _get (keyspaceName domain (req_table req)) req' (Some "data")
              (Some schema) None (get domain req w).2) as Hget'.
  { rewrite <- Hreq' in Hcached |- *. by apply get_hit. }
  split; [done|]. rewrite Hget'.
  match goal with
  | |- context [_get ?k ?q ?t ?s ?i ?w0] =>
      destruct (_get k q t s i w0) as [o w2] eqn:Hget
  end.
  apply _get_frame in Hget as (_ & _ & [Ht|(sql & params & Ht)]); simpl.
  - exists []. rewrite app_nil_r. split; [done|simpl; lia].
  - eexists. split; [exact Ht|]. simpl. lia.
Qed.

(** X7. A [get] on a keyspace without schema stores [null] in the cache,
    which counts as no entry: it is rejected, and the next [get] on the
    table reads the metadata again, so that a table created in between is
    found and read. *)
Theorem get_retries_missing domain req w w1 :
  cached (keyspaceName domain (req_table req)) w = None →
  _getSchema (keyspaceName domain (req_table req)) w = (Ok None, w1) →
  schemaCache (get domain req w).2 !! keyspaceName domain (req_table req)
  = Some None
  ∧ cached (keyspaceName domain (req_table req)) (get domain req w).2 = None
  ∧ ∀ schema w2,
      _getSchema (keyspaceName domain (req_table req)) (get domain req w).2
      = (Ok (Some schema), w2) →
      get domain req (get domain req w).2
      = let '(o, w3) :=
          _get (keyspaceName domain (req_table req)) req (Some "data")
            (Some schema) None
            (withCache (keyspaceName domain (req_table req)) (Some schema) w2)
        in (settled o, w3).
Proof.
  intros Hc Hload.
  assert (schemaCache (get domain req w).2
            !! keyspaceName domain (req_table req) = Some None) as Hnull.
  { rewrite (get_miss _ _ _ _ _ Hc Hload). unfold _get, throw. simpl.
    by rewrite lookup_insert_eq. }
  assert (cached (keyspaceName domain (req_table req)) (get domain req w).2
          = None) as Hcached by (unfold cached; by rewrite Hnull).
  split; [done|]. split; [done|].
  intros schema w2 Hload2. by apply get_miss.
Qed.

(** X8. [get] only reads: the calls it makes are queries, two at most (the
    metadata and the data), never a batch of statements or a migration; it
    changes no request object and no cache entry but the one of its
    keyspace. *)
Theorem get_only_reads domain req w :
  (∃ evs,
     trace (get domain req w).2 = trace w ++ evs
     ∧ forallb isQuery evs = true ∧ (length evs ≤ 2)%nat)
  ∧ heap (get domain req w).2 = heap w
  ∧ ∀ keyspace,
      keyspace ≠ keyspaceName domain (req_table req) →
      schemaCache (get domain req w).2 !! keyspace
      = schemaCache w !! keyspace.
Proof.
  unfold get. unfold_monad.
  destruct (cached (keyspaceName domain (req_table req)) w) as [schema|].
  - match goal with
    | |- context [_get ?k ?q ?t ?s ?i ?w0] =>
        destruct (_get k q t s i w0) as [o w2] eqn:Hget
    end.
    apply _get_frame in Hget as (Hc & Hh & Ht). simpl.
    split; [|by rewrite Hc].
    destruct Ht as [->|(sql & params & ->)].
    + exists []. rewrite app_nil_r. repeat split. simpl. lia.
    + eexists. split; [done|]. split; [done|]. simpl. lia.
  - destruct (_getSchema (keyspaceName domain (req_table req)) w)
      as [o1 w1] eqn:Hload.
    apply _getSchema_frame in Hload as (Hc1 & Hh1 & Ht1).
    assert (∃ evs1, trace w1 = trace w ++ evs1 ∧ forallb isQuery evs1 = true
                    ∧ (length evs1 ≤ 1)%nat) as (evs1 & Hevs1 & Hq1 & Hl1).
    { destruct Ht1 as [->|(sql & params & ->)].
      - exists []. rewrite app_nil_r. repeat split. simpl. lia.
      - eexists. split; [done|]. split; [done|]. simpl. lia. }
    destruct o1 as [oschema|e|e]; simpl.
    2,3: (split; [exists evs1; repeat split; [done|done|lia]|]);
         by rewrite Hc1.
    match goal with
    | |- context [_get ?k ?q ?t ?s ?i ?w0] =>
        destruct (_get k q t s i w0) as [o w2] eqn:Hget
    end.
    apply _get_frame in Hget as (Hc & Hh & Ht). simpl in *.
    split; [|split].
    + destruct Ht as [->|(sql & params & ->)].
      * exists evs1. repeat split; [done|done|lia].
      * exists (evs1 ++ [EvAll sql params]).
        rewrite Hevs1, <- app_assoc. split; [done|].
        rewrite forallb_app, Hq1, length_app. simpl. split; [done|lia].
    + by rewrite Hh.
    + intros keyspace Hne. rewrite Hc, <- Hc1. by apply lookup_insert_ne.
Qed.

(** ** Writing through the cache *)

Lemma put_hit domain r w schema :
  cached (keyspaceName domain (req_table (heap w !!! r))) w = Some schema →
  put domain r w
  = _put (keyspaceName domain (req_table (heap w !!! r))) r None w.
Proof. intros Hc. unfold put. unfold_monad. by rewrite Hc. Qed.

Lemma put_miss domain r w oschema w1 :
  cached (keyspaceName domain (req_table (heap w !!! r))) w = None →
  _getSchema (keyspaceName domain (req_table (heap w !!! r))) w
  = (Ok oschema, w1) →
  put domain r w
  = let '(o, w2) :=
      _put (keyspaceName domain (req_table (heap w !!! r))) r None
        (withCache (keyspaceName domain (req_table (heap w !!! r))) oschema w1)
    in (settled o, w2).
Proof. intros Hc Hload. unfold put. unfold_monad. by rewrite Hc, Hload. Qed.

(** X9. A [put] that finds no schema in the cache and loads one from the
    metadata leaves it in the cache, whatever becomes of the write; the
    next [put] of the same request object does not read the metadata: it
    is [_put] on the [data] relation at once. *)
Theorem put_caches_schema domain r w schema w1 :
  cached (keyspaceName domain (req_table (heap w !!! r))) w = None →
  _getSchema (keyspaceName domain (req_table (heap w !!! r))) w
  = (Ok (Some schema), w1) →
  cached (keyspaceName domain (req_table (heap w !!! r))) (put domain r w).2
  = Some schema
  ∧ put domain r (put domain r w).2
    = _put (keyspaceName domain (req_table (heap w !!! r))) r None
        (put domain r w).2.
Proof.
  intros Hc Hload.
  destruct (_getSchema_frame _ _ _ _ Hload) as (_ & Hh1 & _).
  pose proof (put_miss _ _ _ _ _ Hc Hload) as Hput.
  match type of Hput with
  | context [_put ?k ?r0 ?t ?w0] =>
      pose proof (_put_frame k r0 t w0) as (Hcache & _ & _);
      pose proof (_put_table k r0 t w0) as Htable;
      destruct (_put k r0 t w0) as [o w2]
  end.
  simpl in *. rewrite Hh1 in Htable.
  assert (cached (keyspaceName domain (req_table (heap w !!! r)))
            (put domain r w).2 = Some schema) as Hcached.
  { rewrite Hput. simpl. unfold cached. rewrite Hcache.
    by rewrite lookup_insert_eq. }
  split; [done|].
  assert (req_table (heap (put domain r w).2 !!! r)
          = req_table (heap w !!! r)) as Hsame by (by rewrite Hput).
  rewrite <- Hsame in Hcached |- *. by apply (put_hit domain r _ schema).
Qed.


(** X11. A [put] whose own [tid] cannot be decoded throws the error of
    [TimeUuid.fromString] at once: no statement is built or run and the
    request object is as the caller passed it.  Should a generated [tid]
    not decode, the request object has the [tid] already, and no
    [timestamp]. *)
Theorem put_undecodable_tid keyspace r table w schema req attrs e :
  putSchema (tableOrData table) (cached keyspace w) = Some schema →
  heap w !!! r = req →
  req_attributes req = Some attrs →
  (∀ s,
     truthy (objGet attrs (si_tid schema)) = true →
     toString (objGet attrs (si_tid schema)) = inr s →
     TimeUuid_getDate s = inl e →
     _put keyspace r table w = (Throw e, w))
  ∧ (∀ uuid x,
       truthy (objGet attrs (si_tid schema)) = false →
       TimeUuid_now (ext w) = (uuid, x) →
       TimeUuid_getDate uuid = inl e →
       _put keyspace r table w
       = (Throw e,
          withObject r (setAttribute (si_tid schema) (JStr uuid) req)
            (withExt x w))).
Proof.
  intros Hschema Hobj Hattrs. split.
  - intros s Htid Hs Hdate. unfold _put, attribute. unfold_monad.
    rewrite Hschema. simpl. rewrite Hobj, Hattrs. simpl. rewrite Htid. simpl.
    rewrite Hobj, Hattrs. simpl. rewrite Hs. simpl. by rewrite Hdate.
  - intros uuid x Htid Hnow Hdate. unfold _put, attribute. unfold_monad.
    rewrite Hschema. simpl. rewrite Hobj, Hattrs. simpl. rewrite Htid. simpl.
    rewrite Hnow. simpl. rewrite lookup_total_insert_eq. simpl.
    rewrite Hattrs. simpl. rewrite objGet_objSet_eq. simpl.
    by rewrite Hdate.
Qed.

(** The retention step throws only when it cannot build its read. *)
Lemma _revisionPolicyUpdate_no_throw keyspace query schema w attrs :
  req_attributes query = Some attrs →
  (∀ key,
     itemKey (si_tid schema) (si_iKeys schema) (Some attrs) [] = inr key →
     ∃ q, buildGetQuery keyspace (revisionsQuery schema query key) "data"
            schema (Some false) = inr q) →
  ∀ e, (_revisionPolicyUpdate keyspace query schema w).1 ≠ Throw e.
Proof.
  intros Hattrs Hbuild e. unfold _revisionPolicyUpdate.
  destruct (String.eqb _ "latest"); [|done].
  unfold_monad. destruct (Date_getTime (ext w)) as [now x1]. simpl.
  rewrite Hattrs.
  destruct (itemKey_total (si_tid schema) (si_iKeys schema) attrs [])
    as [key Hkey].
  rewrite Hkey. simpl.
  destruct (Hbuild key Hkey) as [q Hq].
  match goal with
  | |- context [_get ?k ?rq ?t ?s ?i ?w0] =>
      destruct (client_all (st_sql q) (st_params q) (ext w0)) as [ra xa] eqn:Hall;
      rewrite (_get_run k rq t schema i w0 q ra xa Hq Hall)
  end.
  destruct (getOutcome _ _ _) as [res|e'|e'] eqn:Hout; simpl; [|exfalso|done].
  - match goal with
    | |- (let '(o, w'') := ?f ?w0 in _).1 ≠ _ => destruct (f w0) as [o w3]
    end.
    by destruct o.
  - unfold getOutcome in Hout.
    repeat (case_match; simplify_eq/=).
Qed.

(** X12. Once the batch of a write has run, a failure of the retention
    step does not fail the write: when the read of the retention step can
    be built, [_put] resolves to [{status: 201}], whether that read, the
    building of the updates or their batch succeeds or not.  Only when
    [dbu.buildGetQuery] throws for that read is the write rejected, with
    the error thrown, although its batch has run. *)
Theorem retention_failure_is_swallowed
    keyspace r table w schema req attrs used x1 s date pq x2 :
  putSchema (tableOrData table) (cached keyspace w) = Some schema →
  heap w !!! r = req →
  req_attributes req = Some attrs →
  tidUsed schema attrs (ext w) = (used, x1) →
  toString used = inr s →
  TimeUuid_getDate s = inr date →
  buildPutQuery (stamped schema req attrs used date) keyspace
    (tableOrData table) schema = inr pq →
  client_run (putBatch pq) x1 = (inr tt, x2) →
  ((∀ key,
      itemKey (si_tid schema) (si_iKeys schema)
        (req_attributes (stamped schema req attrs used date)) [] = inr key →
      ∃ q, buildGetQuery keyspace
             (revisionsQuery schema (stamped schema req attrs used date) key)
             "data" schema (Some false) = inr q) →
   (_put keyspace r table w).1 = Ok (mkAck 201))
  ∧ (∀ now x3 key e,
       tableOrData table = "data" →
       rp_type (si_revisionRetentionPolicy schema) = "latest" →
       Date_getTime x2 = (now, x3) →
       itemKey (si_tid schema) (si_iKeys schema)
         (req_attributes (stamped schema req attrs used date)) [] = inr key →
       buildGetQuery keyspace
         (revisionsQuery schema (stamped schema req attrs used date) key)
         "data" schema (Some false) = inl e →
       _put keyspace r table w
       = (Reject e,
          withExt x3
            (afterWrite r (stamped schema req attrs used date) (putBatch pq)
               x2 w))).
Proof.
  intros Hschema Hobj Hattrs Hused Hs Hdate Hpq Hrun.
  rewrite (_put_stamp _ _ _ _ _ _ _ _ _ _ _ Hschema Hobj Hattrs Hused Hs Hdate).
  rewrite (putTail_run _ _ _ _ _ pq (inr tt) x2 Hpq) by exact Hrun.
  change (withExt x2 (record (EvRun (putBatch pq))
            (withObject r (stamped schema req attrs used date) (withExt x1 w))))
    with (afterWrite r (stamped schema req attrs used date) (putBatch pq) x2 w).
  pose proof (stamped_attributes schema req attrs used date Hattrs) as Hwa.
  split.
  - intros Hbuild. destruct (String.eqb (tableOrData table) "data"); [|done].
    simpl. rewrite Hwa in Hbuild.
    pose proof (_revisionPolicyUpdate_no_throw keyspace _ schema
                  (afterWrite r (stamped schema req attrs used date)
                     (putBatch pq) x2 w) _ Hwa Hbuild) as Hno.
    destruct (_revisionPolicyUpdate _ _ _ _) as [[[]|e|e] w3]; simpl in *;
      [done| |done].
    by destruct (Hno e).
  - intros now x3 key e Hdata Htype Hnow Hkey Hq. rewrite Hdata. simpl.
    unfold _revisionPolicyUpdate. rewrite Htype. simpl. unfold_monad.
    simpl. rewrite Hnow. simpl.
    change (req_attributes
              (if truthy (objGet attrs (si_tid schema)) then req
               else setAttribute (si_tid schema) used req))
      with (req_attributes (stamped schema req attrs used date)).
    rewrite Hkey. simpl.
    erewrite _get_throw; [done|exact Hq].
Qed.

(** ** The conversion of a row *)

Lemma objKeys_objSet_in (o : Obj) k v :
  k ∈ objKeys o → objKeys (objSet k v o) = objKeys o.
Proof.
  unfold objKeys. induction o as [|[k' v'] o IH]; simpl.
  - by intros ?%elem_of_nil.
  - intros Hin. destruct (String.eqb_spec k' k) as [->|Hne]; simpl; [done|].
    f_equal. apply IH. apply elem_of_cons in Hin as [->|Hin]; done.
Qed.

Lemma objKeys_objDelete (o : Obj) k :
  objKeys (objDelete k o) = filter (λ k', k' ≠ k) (objKeys o).
Proof.
  unfold objKeys. induction o as [|[k' v'] o IH]; simpl; [done|].
  destruct (String.eqb_spec k' k) as [->|Hne].
  - by rewrite filter_cons_False by (intros H; by apply H).
  - rewrite filter_cons_True by done. simpl. by rewrite IH.
Qed.

Lemma objGet_objDelete_ne (o : Obj) k k' :
  k ≠ k' → objGet (objDelete k o) k' = objGet o k'.
Proof.
  intros Hne. induction o as [|[k0 v0] o IH]; simpl; [done|].
  destruct (String.eqb_spec k0 k) as [->|Hk0]; simpl.
  - by apply String.eqb_neq in Hne as ->.
  - by rewrite IH.
Qed.

Lemma objGet_absent (o : Obj) k : k ∉ objKeys o → objGet o k = JUndefined.
Proof.
  unfold objKeys. induction o as [|[k' v'] o IH]; simpl; [done|].
  intros Hnot. apply not_elem_of_cons in Hnot as [Hne Hnot].
  destruct (String.eqb_spec k' k) as [->|_]; [done|]. by apply IH.
Qed.

Lemma convertKeys_keys schema keys (row out : Obj) :
  (∀ k, k ∈ keys → k ∈ objKeys row) →
  convertKeys schema keys row = inr out →
  objKeys out = objKeys row.
Proof.
  revert row. induction keys as [|key keys IH]; intros row Hin; simpl.
  - by intros [= <-].
  - destruct (si_attributes schema) as [attrs|]; [|done].
    destruct (converters schema !! typeOf attrs key) as [conv|]; [|done].
    destruct (conv_read conv (objGet row key)) as [e|v]; [done|].
    intros Hout. apply IH in Hout.
    + rewrite Hout. apply objKeys_objSet_in, Hin, list_elem_of_here.
    + intros k Hk. rewrite objKeys_objSet_in.
      * apply Hin. by apply list_elem_of_further.
      * apply Hin, list_elem_of_here.
Qed.

Lemma convertKeys_values schema keys (row out : Obj) :
  NoDup keys →
  convertKeys schema keys row = inr out →
  ∀ k,
    (k ∈ keys →
     ∃ attrs conv,
       si_attributes schema = Some attrs
       ∧ converters schema !! typeOf attrs k = Some conv
       ∧ conv_read conv (objGet row k) = inr (objGet out k))
    ∧ (k ∉ keys → objGet out k = objGet row k).
Proof.
  revert row. induction keys as [|key keys IH]; intros row Hnodup; simpl.
  - intros [= <-] k. split; [by intros ?%elem_of_nil|done].
  - apply NoDup_cons in Hnodup as [Hnotin Hnodup].
    destruct (si_attributes schema) as [attrs|] eqn:Hattrs; [|done].
    destruct (converters schema !! typeOf attrs key) as [conv|] eqn:Hconv;
      [|done].
    destruct (conv_read conv (objGet row key)) as [e|v] eqn:Hread; [done|].
    intros Hout k. destruct (IH _ Hnodup Hout k) as [Hin Hout'].
    split.
    + intros [->|Hk]%elem_of_cons.
      * exists attrs, conv. repeat split; [done|].
        rewrite (proj2 (IH _ Hnodup Hout key) Hnotin).
        by rewrite objGet_objSet_eq.
      * destruct (Hin Hk) as (attrs' & conv' & Ha & Hc & Hr).
        exists attrs', conv'. repeat split; [done|done|].
        rewrite <- Hr. f_equal. symmetry. apply objGet_objSet_ne.
        intros ->. done.
    + intros [Hne Hk]%not_elem_of_cons. rewrite (Hout' Hk).
      by apply objGet_objSet_ne.
Qed.

(** X13. The row that [convertRow] returns has the columns of the row it
    was given, in their order, but for [_exist_until], which it never has.
    Each value is what the converter of the column's type (looked up by
    the column's name in [schema.attributes]) reads from the stored
    value; there is such a converter for every column, or [convertRow]
    would have thrown. *)
Theorem convertRow_columns schema (row out : Obj) :
  convertRow schema row = inr out →
  objKeys out = filter (λ k, k ≠ "_exist_until") (objKeys row)
  ∧ objGet out "_exist_until" = JUndefined
  ∧ (NoDup (objKeys row) →
     ∀ k, k ∈ objKeys row → k ≠ "_exist_until" →
          ∃ attrs conv,
            si_attributes schema = Some attrs
            ∧ converters schema !! typeOf attrs k = Some conv
            ∧ conv_read conv (objGet row k) = inr (objGet out k)).
Proof.
  unfold convertRow. intros Hout.
  assert (objKeys out = filter (λ k, k ≠ "_exist_until") (objKeys row))
    as Hkeys.
  { rewrite <- objKeys_objDelete. by eapply convertKeys_keys. }
  split; [done|]. split.
  - apply objGet_absent. rewrite Hkeys. intros [Hne _]%list_elem_of_filter.
    done.
  - intros Hnodup k Hk Hne.
    assert (NoDup (objKeys (objDelete "_exist_until" row))) as Hnodup'.
    { rewrite objKeys_objDelete. by apply NoDup_filter. }
    destruct (convertKeys_values _ _ _ _ Hnodup' Hout k) as [Hin _].
    destruct Hin as (attrs & conv & Ha & Hc & Hr).
    { rewrite objKeys_objDelete. by apply list_elem_of_filter. }
    exists attrs, conv. repeat split; [done|done|].
    rewrite <- Hr. f_equal. symmetry. by apply objGet_objDelete_ne.
Qed.

(** ** Paging *)

(** X14. Paging accumulates: when a read with a non-zero [limit] returns
    rows and its [next] is passed back with the same request, the [next]
    of the second read is the [next] of the first request (0 when it had
    none) plus the rows of both reads. *)
Theorem get_next_accumulates
    keyspace req table schema incl w q1 result1 x1 rows1 q2 result2 x2 rows2 :
  truthyNum (req_limit req) = true →
  buildGetQuery keyspace req (tableOrData table) schema incl = inr q1 →
  client_all (st_sql q1) (st_params q1) (ext w) = (inr result1, x1) →
  result1 ≠ AllAbsent →
  convertResult schema result1 = inr rows1 →
  buildGetQuery keyspace
    (withNext (Some (default 0 (req_next req) + Z.of_nat (length rows1))) req)
    (tableOrData table) schema incl = inr q2 →
  client_all (st_sql q2) (st_params q2) x1 = (inr result2, x2) →
  result2 ≠ AllAbsent →
  convertResult schema result2 = inr rows2 →
  ∃ res1 w1 res2 w2,
    _get keyspace req table (Some schema) incl w = (Ok res1, w1)
    ∧ _get keyspace (withNext (res_next res1) req) table (Some schema) incl w1
      = (Ok res2, w2)
    ∧ res_items res1 = rows1 ∧ res_items res2 = rows2
    ∧ res_next res2
      = Some (default 0 (req_next req)
              + Z.of_nat (length rows1) + Z.of_nat (length rows2)).
Proof.
  intros Hlimit Hq1 Hall1 Hne1 Hrows1 Hq2 Hall2 Hne2 Hrows2.
  assert (getOutcome schema req (inr result1)
          = Ok (mkResult (Z.of_nat (length rows1)) rows1
                  (Some (default 0 (req_next req) + Z.of_nat (length rows1)))))
    as Hout1.
  { unfold getOutcome, nextField. rewrite Hrows1, Hlimit, orb_true_r.
    by destruct result1. }
  assert (getOutcome schema
            (withNext (Some (default 0 (req_next req)
                             + Z.of_nat (length rows1))) req)
            (inr result2)
          = Ok (mkResult (Z.of_nat (length rows2)) rows2
                  (Some (default 0 (req_next req) + Z.of_nat (length rows1)
                         + Z.of_nat (length rows2))))) as Hout2.
  { unfold getOutcome, nextField. rewrite Hrows2. simpl.
    rewrite Hlimit, orb_true_r. by destruct result2. }
  eexists _, _, _, _. split.
  { rewrite (_get_run _ _ _ _ _ _ _ _ _ Hq1 Hall1), Hout1. done. }
  simpl. split.
  { rewrite (_get_run keyspace _ table schema incl
               (withExt x1 (record (EvAll (st_sql q1) (st_params q1)) w))
               q2 (inr result2) x2 Hq2 Hall2), Hout2. done. }
  done.
Qed.

(** ** Dropping a table, and reading it afterwards *)

Lemma _getSchema_null keyspace w q r x :
  buildGetQuery keyspace emptyRequest "meta" infoSchemaInfo None = inr q →
  client_all (st_sql q) (st_params q) (ext w) = (r, x) →
  r = inr AllAbsent ∨ r = inr (AllRows [])
  ∨ (∃ e, r = inl e ∧ isSqliteError e = true) →
  _getSchema keyspace w
  = (Ok None, withExt x (record (EvAll (st_sql q) (st_params q)) w)).
Proof.
  intros Hq Hall Hr. unfold _getSchema, then_.
  rewrite (_getSchema_reads _ _ _ _ _ Hq Hall).
  destruct Hr as [->|[->|(e & -> & He)]]; simpl; [done|done|]. by rewrite He.
Qed.

Lemma _getSchema_rejected keyspace w q e x :
  buildGetQuery keyspace emptyRequest "meta" infoSchemaInfo None = inr q →
  client_all (st_sql q) (st_params q) (ext w) = (inl e, x) →
  isSqliteError e = false →
  _getSchema keyspace w
  = (Reject e, withExt x (record (EvAll (st_sql q) (st_params q)) w)).
Proof.
  intros Hq Hall He. unfold _getSchema, then_.
  rewrite (_getSchema_reads _ _ _ _ _ Hq Hall). simpl. by rewrite He.
Qed.

Lemma deleteRequest_frame keyspace oschema w :
  schemaCache (deleteRequest keyspace oschema w).2 = schemaCache w
  ∧ heap (deleteRequest keyspace oschema w).2 = heap w.
Proof.
  destruct (client_run (dropBatch keyspace (staticTableExist oschema)) (ext w))
    as [r x] eqn:Hrun.
  by rewrite (deleteRequest_run _ _ _ _ _ Hrun).
Qed.

Lemma dropTable_hit domain table w schema r x :
  cached (keyspaceName domain table) w = Some schema →
  client_run
    (dropBatch (keyspaceName domain table) (staticTableExist (Some schema)))
    (ext w) = (r, x) →
  dropTable domain table w =
    (promised r,
     mkDB (delete (keyspaceName domain table) (schemaCache w)) (heap w) x
       (trace w
          ++ [EvRun (dropBatch (keyspaceName domain table)
                       (staticTableExist (Some schema)))])).
Proof.
  intros Hcache Hrun. unfold dropTable. unfold_monad. rewrite Hcache. simpl.
  erewrite deleteRequest_run by exact Hrun. done.
Qed.

(** X15. After [dropTable] the keyspace has no schema in the cache,
    whether the drop was run, resolved or was rejected; the cache entries
    of the other keyspaces and the request objects are as before. *)
Theorem dropTable_evicts domain table w :
  cached (keyspaceName domain table) (dropTable domain table w).2 = None
  ∧ (∀ keyspace,
       keyspace ≠ keyspaceName domain table →
       schemaCache (dropTable domain table w).2 !! keyspace
       = schemaCache w !! keyspace)
  ∧ heap (dropTable domain table w).2 = heap w.
Proof.
  unfold dropTable. unfold_monad.
  destruct (cached (keyspaceName domain table) w) as [schema|] eqn:Hcache;
    simpl.
  - match goal with
    | |- context [deleteRequest ?k ?s ?w0] =>
        destruct (deleteRequest_frame k s w0) as [Hc Hh];
        destruct (deleteRequest k s w0) as [[[]|e|e] w2]
    end; simpl in *; unfold cached; rewrite Hc, Hh, lookup_delete_eq;
      (split; [done|]; split; [|done]);
      intros keyspace Hne; by rewrite lookup_delete_ne.
  - destruct (_getSchema (keyspaceName domain table) w) as [o1 w1] eqn:Hload.
    apply _getSchema_frame in Hload as (Hc1 & Hh1 & _).
    assert (cached (keyspaceName domain table) w1 = None) as Hcache1
      by (unfold cached in *; by rewrite Hc1).
    destruct o1 as [oschema|e|e]; simpl; [|by rewrite Hc1, Hh1..].
    match goal with
    | |- context [deleteRequest ?k ?s ?w0] =>
        destruct (deleteRequest_frame k s w0) as [Hc Hh];
        destruct (deleteRequest k s w0) as [o w2]
    end.
    simpl in *. unfold cached in *. by rewrite Hc, Hh, Hc1, Hh1.
Qed.

(** X16. When [dropTable] has no cached schema and the query on the
    metadata fails with a failure that is not an SQLITE_ERROR failure,
    [dropTable] is rejected with that failure and drops nothing: the
    query is the only call it has made. *)
Theorem dropTable_load_rejected domain table w q e x :
  cached (keyspaceName domain table) w = None →
  buildGetQuery (keyspaceName domain table) emptyRequest "meta"
    infoSchemaInfo None = inr q →
  client_all (st_sql q) (st_params q) (ext w) = (inl e, x) →
  isSqliteError e = false →
  dropTable domain table w
  = (Reject e,
     mkDB (schemaCache w) (heap w) x
       (trace w ++ [EvAll (st_sql q) (st_params q)])).
Proof.
  intros Hcache Hq Hall He. unfold dropTable. unfold_monad.
  rewrite Hcache. by rewrite (_getSchema_rejected _ _ _ _ _ Hq Hall He).
Qed.

(** X17. After [dropTable] has dropped a table whose schema was cached, a
    [get] on the table is rejected with "restbase-sqlite3: No schema for
    <keyspace>_data" when the metadata of the keyspace is gone (the query
    on [meta] returns nothing or fails with SQLITE_ERROR): the cache entry
    was deleted, so the read does not resolve to the empty result that a
    missing [data] relation gives under a cached schema. *)
Theorem dropTable_then_get domain table w schema r x req q ra x' :
  cached (keyspaceName domain table) w = Some schema →
  client_run
    (dropBatch (keyspaceName domain table) (staticTableExist (Some schema)))
    (ext w) = (r, x) →
  req_table req = table →
  buildGetQuery (keyspaceName domain table) emptyRequest "meta"
    infoSchemaInfo None = inr q →
  client_all (st_sql q) (st_params q) x = (ra, x') →
  ra = inr AllAbsent ∨ ra = inr (AllRows [])
  ∨ (∃ e, ra = inl e ∧ isSqliteError e = true) →
  (get domain req (dropTable domain table w).2).1
  = Reject (Error ("restbase-sqlite3: No schema for "
                     +:+ keyspaceName domain table +:+ "_data")).
Proof.
  intros Hcache Hrun <- Hq Hall Hra.
  rewrite (dropTable_hit _ _ _ _ _ _ Hcache Hrun). simpl.
  match goal with
  | |- (get _ _ ?w0).1 = _ =>
      assert (cached (keyspaceName domain (req_table req)) w0 = None)
        as Hgone by (unfold cached; simpl; by rewrite lookup_delete_eq);
      pose proof (_getSchema_null (keyspaceName domain (req_table req)) w0
                    q ra x' Hq Hall Hra) as Hload;
      rewrite (get_miss _ _ _ _ _ Hgone Hload)
  end.
  by unfold _get, throw.
Qed.

(** ** The cache after a table is created *)

(** X3. Once the batch that creates the relations has resolved, the cache
    entry of the keyspace is the requested schema, whatever becomes of the
    metadata write: the cache is set before the write, and a write that
    throws or is rejected does not undo it.  A [get] on the table right
    after reads the [data] relation under the requested schema, without
    reading the metadata. *)
Theorem createTable_caches_before_metadata
    domain decl t w w1 normal info attrs x :
  d_table decl = Some t → t ≠ "" →
  _getSchema (keyspaceName domain (d_table decl)) w = (Ok None, w1) →
  validateAndNormalizeSchema decl = inr normal →
  makeSchemaInfo normal false = inr info →
  si_attributes info = Some attrs →
  client_run (createBatch (keyspaceName domain (d_table decl)) info) (ext w1)
    = (inr tt, x) →
  cached (keyspaceName domain (d_table decl)) (createTable domain decl w).2
  = Some info
  ∧ ∀ req,
      req_table req = d_table decl →
      get domain req (createTable domain decl w).2
      = _get (keyspaceName domain (d_table decl)) req (Some "data")
          (Some info) None (createTable domain decl w).2.
Proof.
  intros Ht Hne Hload Hvalid Hinfo Hattrs Hrun.
  assert (cached (keyspaceName domain (d_table decl))
            (createTable domain decl w).2 = Some info) as Hcached.
  { rewrite (createTable_new _ _ _ _ _ _ _ Ht Hne Hload Hvalid Hinfo), Hattrs.
    cbv zeta. rewrite Hrun.
    match goal with
    | |- context [persistSchema ?k ?n ?i ?w0] =>
        pose proof (persistSchema_cache k n i w0) as Hcache;
        destruct (persistSchema k n i w0) as [o w3]
    end.
    simpl in *. unfold cached. rewrite Hcache. by rewrite lookup_insert_eq. }
  split; [done|]. intros req Hreq.
  rewrite <- Hreq in Hcached |- *. by apply get_hit.
Qed.

(** ** What the cache has no part in *)

Lemma _get_recache keyspace req table oschema incl cache w :
  _get keyspace req table oschema incl (recache cache w)
  = ((_get keyspace req table oschema incl w).1,
     recache cache (_get keyspace req table oschema incl w).2).
Proof.
  destruct oschema as [schema|]; [|by unfold _get, throw].
  destruct (buildGetQuery keyspace req (tableOrData table) schema incl)
    as [e|q] eqn:Hq.
  - by rewrite !(_get_throw _ _ _ _ _ _ _ Hq).
  - destruct (client_all (st_sql q) (st_params q) (ext w)) as [r x] eqn:Hall.
    rewrite (_get_run _ _ _ _ _ w _ _ _ Hq Hall).
    by rewrite (_get_run _ _ _ _ _ (recache cache w) _ _ _ Hq Hall).
Qed.

Lemma _getSchema_recache keyspace cache w :
  _getSchema keyspace (recache cache w)
  = ((_getSchema keyspace w).1, recache cache (_getSchema keyspace w).2).
Proof.
  unfold _getSchema, then_. rewrite _get_recache.
  destruct (_get keyspace emptyRequest (Some "meta") (Some infoSchemaInfo)
              None w) as [[res|e|e] w1]; simpl; [|done|done].
  destruct (res_items res); unfold_monad; [done|].
  by repeat (case_match; simplify_eq/=).
Qed.

(** A write to [meta] does not look at the cache. *)
Lemma _put_meta_recache keyspace r cache w :
  _put keyspace r (Some "meta") (recache cache w)
  = ((_put keyspace r (Some "meta") w).1,
     recache cache (_put keyspace r (Some "meta") w).2).
Proof.
  unfold _put. unfold_monad. simpl.
  by repeat (case_match; simplify_eq/=).
Qed.

Lemma persistSchema_recache keyspace normal info cache w :
  persistSchema keyspace normal info (recache cache w)
  = ((persistSchema keyspace normal info w).1,
     recache (<[keyspace := Some info]> cache)
       (persistSchema keyspace normal info w).2).
Proof.
  unfold persistSchema. simpl.
  exact (_put_meta_recache keyspace (fresh (dom (heap w)))
           (<[keyspace := Some info]> cache)
           (mkDB (<[keyspace := Some info]> (schemaCache w))
              (<[fresh (dom (heap w)) := schemaRow normal]> (heap w))
              (ext w) (trace w))).
Qed.

(** [createTable] when the stored schema cannot be loaded, or the declared
    one is refused. *)
Lemma createTable_not_loaded domain decl t w o1 w1 :
  d_table decl = Some t → t ≠ "" →
  _getSchema (keyspaceName domain (d_table decl)) w = (o1, w1) →
  (∀ e, o1 = Throw e → createTable domain decl w = (Throw e, w1))
  ∧ (∀ e, o1 = Reject e → createTable domain decl w = (Reject e, w1)).
Proof.
  intros Ht Hne Hload. unfold createTable. rewrite Ht.
  destruct t as [|c t]; [done|]. rewrite <- Ht.
  split; intros e ->; unfold then_ at 1; by rewrite Hload.
Qed.

Lemma createTable_refused domain decl t w current w1 :
  d_table decl = Some t → t ≠ "" →
  _getSchema (keyspaceName domain (d_table decl)) w = (Ok current, w1) →
  (∀ e, validateAndNormalizeSchema decl = inl e →
        createTable domain decl w = (Reject e, w1))
  ∧ (∀ normal e,
       validateAndNormalizeSchema decl = inr normal →
       makeSchemaInfo normal false = inl e →
       createTable domain decl w = (Reject e, w1)).
Proof.
  intros Ht Hne Hload. unfold createTable. rewrite Ht.
  destruct t as [|c t]; [done|]. rewrite <- Ht.
  split.
  - intros e Hvalid. unfold then_ at 1. rewrite Hload. unfold_monad.
    by rewrite Hvalid.
  - intros normal e Hvalid Hinfo. unfold then_ at 1. rewrite Hload.
    unfold_monad. rewrite Hvalid. simpl. by rewrite Hinfo.
Qed.

(** X18. [createTable] does not consult the cache: with any other content
    of the cache it makes the same calls, leaves the collaborators and the
    request objects in the same state and ends in the same way.  What it
    decides, it decides from the stored metadata. *)
Theorem createTable_ignores_cache domain decl cache w :
  (createTable domain decl (recache cache w)).1 = (createTable domain decl w).1
  ∧ trace (createTable domain decl (recache cache w)).2
    = trace (createTable domain decl w).2
  ∧ ext (createTable domain decl (recache cache w)).2
    = ext (createTable domain decl w).2
  ∧ heap (createTable domain decl (recache cache w)).2
    = heap (createTable domain decl w).2.
Proof.
  assert (∃ cache',
            createTable domain decl (recache cache w)
            = ((createTable domain decl w).1,
               recache cache' (createTable domain decl w).2)) as [cache' ->];
    [|done].
  destruct (d_table decl) as [t|] eqn:Ht;
    [destruct (decide (t = "")) as [->|Hne]|];
    [exists cache; unfold createTable; by rewrite Ht| |
     exists cache; unfold createTable; by rewrite Ht].
  destruct (_getSchema (keyspaceName domain (d_table decl)) w)
    as [o1 w1] eqn:Hload.
  assert (_getSchema (keyspaceName domain (d_table decl)) (recache cache w)
          = (o1, recache cache w1)) as Hload'
    by (by rewrite _getSchema_recache, Hload).
  destruct o1 as [current|e|e].
  2: { exists cache.
       destruct (createTable_not_loaded _ _ _ _ _ _ Ht Hne Hload) as [H1 _].
       destruct (createTable_not_loaded _ _ _ _ _ _ Ht Hne Hload') as [H2 _].
       by rewrite (H1 e eq_refl), (H2 e eq_refl). }
  2: { exists cache.
       destruct (createTable_not_loaded _ _ _ _ _ _ Ht Hne Hload) as [_ H1].
       destruct (createTable_not_loaded _ _ _ _ _ _ Ht Hne Hload') as [_ H2].
       by rewrite (H1 e eq_refl), (H2 e eq_refl). }
  destruct (createTable_refused _ _ _ _ _ _ Ht Hne Hload) as [Hv Hi].
  destruct (createTable_refused _ _ _ _ _ _ Ht Hne Hload') as [Hv' Hi'].
  destruct (validateAndNormalizeSchema decl) as [e|normal] eqn:Hvalid;
    [exists cache; by rewrite (Hv e), (Hv' e)|].
  destruct (makeSchemaInfo normal false) as [e|info] eqn:Hinfo;
    [exists cache; by rewrite (Hi normal e), (Hi' normal e)|].
  clear Hv Hi Hv' Hi'.
  destruct current as [current|].
  - rewrite (createTable_current _ _ _ _ _ _ _ _ Ht Hne Hload Hvalid Hinfo).
    rewrite (createTable_current _ _ _ _ _ _ _ _ Ht Hne Hload' Hvalid Hinfo).
    destruct (negb _); [|by exists cache]. simpl.
    destruct (newSchemaMigrator _ _ _ _ _); [by exists cache|]. simpl.
    destruct (migrate _ _) as [[e|[]] x]; [by exists cache|].
    match goal with
    | |- context [persistSchema ?k ?n ?i (withExt ?x0 (record ?e2 (record ?e1
                    (recache cache w1))))] =>
        change (withExt x0 (record e2 (record e1 (recache cache w1))))
          with (recache cache (withExt x0 (record e2 (record e1 w1))));
        rewrite (persistSchema_recache k n i cache
                   (withExt x0 (record e2 (record e1 w1))));
        destruct (persistSchema k n i (withExt x0 (record e2 (record e1 w1))))
          as [o w3]
    end.
    by eexists.
  - rewrite (createTable_new _ _ _ _ _ _ _ Ht Hne Hload Hvalid Hinfo).
    rewrite (createTable_new _ _ _ _ _ _ _ Ht Hne Hload' Hvalid Hinfo).
    destruct (si_attributes info); [|by exists cache]. cbv zeta. simpl.
    destruct (client_run _ _) as [[e|[]] x]; [by exists cache|].
    match goal with
    | |- context [persistSchema ?k ?n ?i (withExt ?x0 (record ?e1
                    (recache cache w1)))] =>
        change (withExt x0 (record e1 (recache cache w1)))
          with (recache cache (withExt x0 (record e1 w1)));
        rewrite (persistSchema_recache k n i cache
                   (withExt x0 (record e1 w1)));
        destruct (persistSchema k n i (withExt x0 (record e1 w1))) as [o w3]
    end.
    by eexists.
Qed.

End Properties.

(** * The operations and the properties on the scripted instance *)

Import Mock.

Example truthy_zero : truthy (JNum 0) = false ∧ truthy (JStr "") = false.
Proof. split; reflexivity. Qed.

Example objSet_keeps_place :
  objSet "b" (JNum 2) [("a", JNum 0); ("b", JNum 1)]
  = [("a", JNum 0); ("b", JNum 2)]
  ∧ objSet "c" (JNum 2) [("a", JNum 0)] = [("a", JNum 0); ("c", JNum 2)].
Proof. split; reflexivity. Qed.

Example slice0_front : slice0 2 [JNum 1; JNum 2; JNum 3] = [JNum 1; JNum 2].
Proof. reflexivity. Qed.

Example slice0_beyond : slice0 5 [JNum 1; JNum 2] = [JNum 1; JNum 2].
Proof. reflexivity. Qed.

Example slice0_from_the_end :
  slice0 (-1) [JNum 1; JNum 2; JNum 3] = [JNum 1; JNum 2].
Proof. reflexivity. Qed.

Example convertRow_drops_the_marker :
  convertRow pagesInfo [("title", JStr "a"); ("_exist_until", JNum 5)]
  = inr [("title", JStr "a")].
Proof. vm_compute. reflexivity. Qed.

Example convertRow_unknown_attribute :
  convertRow pagesInfo [("rev", JNum 1)]
  = inl (TypeError "Cannot read property 'read' of undefined").
Proof. vm_compute. reflexivity. Qed.

Example createTable_requires_a_name :
  createTable "en" (mkDesc None [] [] None) (db idle)
  = (Throw (Error "Table name required."), db idle).
Proof. reflexivity. Qed.

Example createTable_creates :
  trace (createTable "en" pages (db idle)).2
  = [ EvAll "select * from en_pages_meta" [];
      EvRun [ mkStmt "create table en_pages_data" [];
              mkStmt "create table en_pages_meta" [];
              mkStmt "create table en_pages_static" [];
              mkStmt "create view en_pages_indexView" [] ];
      EvRun [ mkStmt "insert or replace into en_pages_meta"
                [JStr "schema"; JStr (stringify pages); JStr "1000"] ] ].
Proof. vm_compute. reflexivity. Qed.

(** A read with [limit = 0] that returns rows has no [next]. *)
Example get_limit_zero :
  (_get "en_pages"
     (mkRequest (Some "pages") (Some [("title", JStr "a")]) (Some 0) None
        None None)
     None (Some pagesInfo) None
     (db (answering (inr (AllRows revisions))))).1
  = Ok (mkResult 3 revisions None).
Proof. vm_compute. reflexivity. Qed.

(** A write after which the item has two revisions marks none. *)
Example put_two_revisions_marks_nothing :
  trace (_put "en_pages" 1%positive None
           (mkDB {["en_pages" := Some pagesInfo]} {[1%positive := writePage]}
              (answering (inr (AllRows (take 2 revisions)))) [])).2
  = [ EvRun [ mkStmt "insert or replace into en_pages_data"
                [JStr "a"; JStr "b"; JStr "1000"] ];
      EvAll "select * from en_pages_data" [JStr "a"] ].
Proof. vm_compute. reflexivity. Qed.

(** C10, on a read that returns the three revisions of a page. *)
Lemma get_count_is_items_length_witness :
  ∃ res w',
    _get "en_pages" Mock.readPage None (Some Mock.pagesInfo) None
      (Mock.db (Mock.answering (inr (AllRows Mock.revisions)))) = (Ok res, w')
    ∧ res_count res = Z.of_nat (length (res_items res)).
Proof.
  eexists _, _. split; [vm_compute; reflexivity|].
  eapply (get_count_is_items_length "en_pages" Mock.readPage None
            (Some Mock.pagesInfo) None
            (Mock.db (Mock.answering (inr (AllRows Mock.revisions))))).
  vm_compute. reflexivity.
Defined.

(** C5, as stated, fails: a read with [limit = 10] for which the engine
    returns nothing resolves to a result without [next]. *)
Lemma get_next_missing_counterexample :
  ∃ res w',
    _get "en_pages" Mock.readPage None (Some Mock.pagesInfo) None
      (Mock.db Mock.idle) = (Ok res, w')
    ∧ ¬ (is_Some (res_next res)
         ↔ is_Some (req_next Mock.readPage) ∨ is_Some (req_limit Mock.readPage)).
Proof.
  eexists _, _. split; [vm_compute; reflexivity|].
  simpl. intros [_ Hnext].
  destruct Hnext as [? [=]]. right. by eexists.
Qed.

(** C5 amended, on a read with [limit = 10] that returns three rows:
    [next] is 3. *)
Lemma get_next_field_witness :
  ∃ res w',
    _get "en_pages" Mock.readPage None (Some Mock.pagesInfo) None
      (Mock.db (Mock.answering (inr (AllRows Mock.revisions)))) = (Ok res, w')
    ∧ res_next res = Some 3.
Proof.
  eexists _, _. split; [vm_compute; reflexivity|].
  edestruct (get_next_field "en_pages" Mock.readPage None Mock.pagesInfo None
               (Mock.db (Mock.answering (inr (AllRows Mock.revisions)))))
    as [Hrows _]; [reflexivity | reflexivity | vm_compute; reflexivity |].
  edestruct Hrows as [_ Hnext]; [reflexivity | discriminate | reflexivity |].
  exact Hnext.
Defined.


(** C7, as stated, fails: with no metadata row for the keyspace, [get] is
    rejected with a plain [Error], not with a 404. *)
Lemma get_missing_table_counterexample :
  ∃ res w1 e,
    _get "en_pages" emptyRequest (Some "meta") (Some infoSchemaInfo) None
      Mock.blank = (Ok res, w1)
    ∧ res_items res = []
    ∧ (get "en" Mock.readPage Mock.blank).1 = Reject e
    ∧ ∀ body, e ≠ HTTPError 404 body.
Proof.
  eexists _, _, _. split; [vm_compute; reflexivity|].
  split; [reflexivity|]. split; [vm_compute; reflexivity|]. done.
Qed.

(** C7 amended, on a keyspace that was never created. *)
Lemma missing_table_errors_witness :
  (getTableSchema "en" (Some "pages") Mock.blank).1 = Reject notFound
  ∧ (get "en" Mock.readPage Mock.blank).1
    = Reject (Error "restbase-sqlite3: No schema for en_pages_data")
  ∧ (put "en" 1%positive Mock.blank).1 = Reject (Error "Table not found!").
Proof.
  edestruct (missing_table_errors "en" (Some "pages") Mock.readPage 1%positive
               Mock.blank) as (Hschema & Hget & Hput);
    [vm_compute; reflexivity | reflexivity | reflexivity | reflexivity
    | reflexivity |].
  rewrite Hschema, Hget, Hput. done.
Defined.

(** C8, on a table whose schema is cached. *)
Lemma dropTable_batch_witness :
  trace (dropTable "en" (Some "pages") Mock.serving).2
  = [EvRun (dropBatch "en_pages" false)]
  ∧ cached "en_pages" (dropTable "en" (Some "pages") Mock.serving).2 = None.
Proof.
  destruct (dropTable_batch "en" (Some "pages") Mock.serving) as (Hhit & _ & _).
  erewrite Hhit; [|reflexivity|reflexivity].
  split; reflexivity.
Defined.


(** C9, on the same write through [put]. *)
Lemma put_mutates_request_witness :
  heap (put "en" 1%positive Mock.serving).2 !! 1%positive
  = Some (mkRequest (Some "pages")
            (Some [("title", JStr "a"); ("body", JStr "b");
                   ("tid", JStr "1000")])
            None None None (Some 1000)).
Proof.
  edestruct (put_mutates_request "en" 1%positive Mock.serving Mock.serving
               Mock.pagesInfo Mock.writePage)
    as (Hheap & _);
    [reflexivity | reflexivity | left; split; reflexivity | reflexivity
    | reflexivity | reflexivity |].
  rewrite Hheap. reflexivity.
Defined.

(** C2, as stated, fails: the call that creates the table and the call that
    finds it unchanged resolve to the same status. *)
Lemma createTable_same_status_counterexample :
  ∃ a1 w1 a2 w2 current w1',
    createTable "en" Mock.pages (Mock.db (Mock.creating Mock.pages))
      = (Ok a1, w1)
    ∧ _getSchema "en_pages" w1 = (Ok (Some current), w1')
    ∧ si_hash current = si_hash Mock.pagesInfo
    ∧ createTable "en" Mock.pages w1 = (Ok a2, w2)
    ∧ ¬ (a1 ≠ a2).
Proof.
  eexists _, _, _, _, _, _. split; [vm_compute; reflexivity|].
  split; [vm_compute; reflexivity|]. split; [reflexivity|].
  split; [vm_compute; reflexivity|]. intros Hne. by apply Hne.
Qed.

(** C2 amended, on a table that is created again with the schema that is
    stored. *)
Lemma createTable_same_schema_witness :
  ∃ w1,
    createTable "en" Mock.pages (Mock.db (Mock.storing Mock.pages))
      = (Ok (mkAck 201), w1)
    ∧ trace w1 = [EvAll "select * from en_pages_meta" []]
    ∧ schemaCache w1 = ∅.
Proof.
  edestruct (createTable_same_schema "en" Mock.pages "pages"
               (Mock.db (Mock.storing Mock.pages)))
    as (Hcreate & Hcache & _ & (q & Hq & Htrace) & _);
    [reflexivity | done | vm_compute; reflexivity | reflexivity | reflexivity
    | reflexivity |].
  eexists. split; [exact Hcreate|]. split; [|exact Hcache].
  rewrite Htrace. injection Hq as <-. reflexivity.
Defined.

(** C3, as stated, fails: when [migrate] is rejected, [createTable] is
    rejected with the failure of the migration, not with a 400. *)
Lemma createTable_migrate_failure_counterexample :
  ∃ current w1,
    _getSchema "en_pages" (Mock.db (Mock.refusing Mock.pages))
      = (Ok (Some current), w1)
    ∧ si_hash current ≠ si_hash Mock.pages2Info
    ∧ (createTable "en" Mock.pages2 (Mock.db (Mock.refusing Mock.pages))).1
      = Reject Mock.migrationFailed
    ∧ ∀ body, Mock.migrationFailed ≠ HTTPError 400 body.
Proof.
  eexists _, _. split; [vm_compute; reflexivity|].
  split; [vm_compute; discriminate|]. split; [vm_compute; reflexivity|]. done.
Qed.

(** C3 amended, on a table that is created again with one more attribute,
    over an engine that accepts the migration. *)
Lemma createTable_migrates_witness :
  ∃ w',
    createTable "en" Mock.pages2 (Mock.db (Mock.storing Mock.pages))
      = (Ok (mkAck 201), w')
    ∧ cached "en_pages" w' = Some Mock.pages2Info
    ∧ ∃ m batch,
        trace w' = [EvAll "select * from en_pages_meta" [];
                    EvNewMigrator m; EvMigrate m; EvRun batch]
        ∧ mg_current m = Mock.pagesInfo ∧ mg_next m = Mock.pages2Info.
Proof.
  edestruct (createTable_migrates "en" Mock.pages2 "pages"
               (Mock.db (Mock.storing Mock.pages)))
    as (_ & _ & _ & Hok);
    [reflexivity | done | vm_compute; reflexivity | reflexivity | reflexivity
    | vm_compute; discriminate |].
  edestruct Hok as [Hcreate _];
    [reflexivity | reflexivity | reflexivity | reflexivity | reflexivity
    | reflexivity | reflexivity |].
  eexists. split; [exact Hcreate|]. split; [reflexivity|].
  eexists _, _. split; [reflexivity|]. split; reflexivity.
Defined.


(** * The further properties on the scripted instance *)

(** X1, on a table that is created on an engine without metadata. *)
Lemma createTable_new_table_witness :
  ∃ w',
    createTable "en" pages (db idle) = (Ok (mkAck 201), w')
    ∧ cached "en_pages" w' = Some pagesInfo
    ∧ ∃ written,
        trace w' = [ EvAll "select * from en_pages_meta" [];
                     EvRun (createBatch "en_pages" pagesInfo);
                     EvRun [written] ].
Proof.
  destruct (createTable_new_table "en" pages "pages" (db idle)
              (mkDB ∅ ∅ idle [EvAll "select * from en_pages_meta" []])
              pages pagesInfo
              [("title", "string"); ("tid", "timeuuid"); ("body", "string")])
    as [_ Hcreated];
    [reflexivity|done|reflexivity|reflexivity|reflexivity|reflexivity|].
  eexists. split.
  - eapply (Hcreated idle (JStr "1000") (mkState [] [] None (inr tt) 1001)
              "1000" 1000 _ (inr tt) (mkState [] [] None (inr tt) 1001));
      reflexivity.
  - split; [reflexivity|]. eexists. reflexivity.
Defined.

(** X2, on a declared schema without attributes under a validation that
    asks for some. *)
Lemma createTable_invalid_schema_witness :
  createTable (dbu := strict) "en" bare (db idle)
  = (Reject (Error "Attributes are required"),
     mkDB ∅ ∅ idle [EvAll "select * from en_pages_meta" []]).
Proof.
  destruct (createTable_invalid_schema (dbu := strict) "en" bare "pages"
              (db idle) None
              (mkDB ∅ ∅ idle [EvAll "select * from en_pages_meta" []]))
    as (_ & Hrefused & _); [reflexivity|done|reflexivity|].
  by apply Hrefused.
Defined.

(** X3, on a creation whose metadata write is rejected: the schema is
    cached all the same. *)
Lemma createTable_caches_before_metadata_witness :
  (createTable "en" pages (db halfway)).1 = Reject busy
  ∧ cached "en_pages" (createTable "en" pages (db halfway)).2
    = Some pagesInfo.
Proof.
  split; [vm_compute; reflexivity|].
  edestruct (createTable_caches_before_metadata "en" pages "pages"
               (db halfway)
               (mkDB ∅ ∅ halfway [EvAll "select * from en_pages_meta" []])
               pages pagesInfo)
    as [Hcached _];
    [reflexivity|done|reflexivity|reflexivity|reflexivity|reflexivity
    |reflexivity|].
  exact Hcached.
Defined.

(** X4, on a keyspace whose [meta] relation is not there. *)
Lemma _getSchema_absent_witness :
  (_getSchema "en_pages" (db (answering (inl noSuchTable)))).1 = Ok None
  ∧ (_getSchema "en_pages" (db (answering (inl busy)))).1 = Reject busy.
Proof.
  split.
  - edestruct (_getSchema_absent "en_pages" (db (answering (inl noSuchTable))))
      as [Hnull _]; [reflexivity|reflexivity|].
    rewrite Hnull; [done|]. right. right. by eexists.
  - edestruct (_getSchema_absent "en_pages" (db (answering (inl busy))))
      as [_ Hrejected]; [reflexivity|reflexivity|].
    by rewrite (Hrejected busy).
Defined.

(** X5, on a keyspace that stores [pages]. *)
Lemma getTableSchema_agrees_witness :
  ∃ w1,
    getTableSchema "en" (Some "pages") (db (storing pages))
    = (Ok (mkTableSchema 200 (JStr "999") pages), w1)
    ∧ _getSchema "en_pages" (db (storing pages)) = (Ok (Some pagesInfo), w1).
Proof.
  eexists. split; [vm_compute; reflexivity|].
  destruct (getTableSchema_agrees "en" (Some "pages") (db (storing pages)))
    as [Hok _].
  edestruct Hok as [_ Hschema]; [vm_compute; reflexivity|].
  exact Hschema.
Defined.

(** X6, on two reads of a table whose schema is stored and not cached. *)
Lemma get_caches_schema_witness :
  cached "en_pages" (get "en" readPage cold).2 = Some pagesInfo
  ∧ trace (get "en" readPage (get "en" readPage cold).2).2
    = [ EvAll "select * from en_pages_meta" [];
        EvAll "select * from en_pages_data" [JStr "a"];
        EvAll "select * from en_pages_data" [JStr "a"] ].
Proof.
  edestruct (get_caches_schema "en" readPage cold pagesInfo)
    as [Hcached Hnext]; [reflexivity|vm_compute; reflexivity|].
  split; [exact Hcached|].
  destruct (Hnext readPage eq_refl) as [-> _]. vm_compute. reflexivity.
Defined.

(** X7, on a read of a table that does not exist. *)
Lemma get_retries_missing_witness :
  schemaCache (get "en" readPage blank).2 !! "en_pages" = Some None
  ∧ cached "en_pages" (get "en" readPage blank).2 = None.
Proof.
  edestruct (get_retries_missing "en" readPage blank)
    as (Hnull & Hcached & _); [reflexivity|vm_compute; reflexivity|].
  split; [exact Hnull|exact Hcached].
Defined.

(** X8, on a read that loads the schema. *)
Lemma get_only_reads_witness :
  heap (get "en" readPage cold).2 = heap cold
  ∧ ∃ evs, trace (get "en" readPage cold).2 = evs
           ∧ forallb isQuery evs = true.
Proof.
  destruct (get_only_reads "en" readPage cold)
    as ((evs & Htrace & Hqueries & _) & Hheap & _).
  split; [exact Hheap|]. exists evs. split; [exact Htrace|exact Hqueries].
Defined.

(** X9, on a write to a table whose schema is stored and not cached. *)
Lemma put_caches_schema_witness :
  cached "en_pages" (put "en" 1%positive cold).2 = Some pagesInfo.
Proof.
  edestruct (put_caches_schema "en" 1%positive cold pagesInfo)
    as [Hcached _]; [reflexivity|vm_compute; reflexivity|].
  exact Hcached.
Defined.


(** X11, on a write whose [tid] is no time UUID. *)
Lemma put_undecodable_tid_witness :
  _put "en_pages" 1%positive None
    (mkDB {["en_pages" := Some pagesInfo]} {[1%positive := writeBadTid]}
       idle [])
  = (Throw (Error "Invalid string representation of TimeUuid"),
     mkDB {["en_pages" := Some pagesInfo]} {[1%positive := writeBadTid]}
       idle []).
Proof.
  edestruct (put_undecodable_tid "en_pages" 1%positive None
               (mkDB {["en_pages" := Some pagesInfo]}
                  {[1%positive := writeBadTid]} idle [])
               pagesInfo writeBadTid)
    as [Hthrown _]; [reflexivity|reflexivity|reflexivity|].
  apply (Hthrown "yesterday"); reflexivity.
Defined.

(** X12, on a write whose retention read the engine rejects. *)
Lemma retention_failure_is_swallowed_witness :
  (_put "en_pages" 1%positive None servingBusy).1 = Ok (mkAck 201)
  ∧ trace (_put "en_pages" 1%positive None servingBusy).2
    = [ EvRun [ mkStmt "insert or replace into en_pages_data"
                  [JStr "a"; JStr "b"; JStr "1000"] ];
        EvAll "select * from en_pages_data" [JStr "a"] ].
Proof.
  split; [|vm_compute; reflexivity].
  destruct (retention_failure_is_swallowed "en_pages" 1%positive None
              servingBusy pagesInfo writePage
              [("title", JStr "a"); ("body", JStr "b")] (JStr "1000")
              (mkState [inl busy] [] None (inr tt) 1001) "1000" 1000
              (mkPutQuery
                 (mkStmt "insert or replace into en_pages_data"
                    [JStr "a"; JStr "b"; JStr "1000"]) None)
              (mkState [inl busy] [] None (inr tt) 1001))
    as [Hswallowed _];
    [reflexivity|reflexivity|reflexivity|reflexivity|reflexivity|reflexivity
    |reflexivity|reflexivity|].
  apply Hswallowed. intros key _. eexists. reflexivity.
Defined.

(** X13, on a row that is marked for deletion. *)
Lemma convertRow_columns_witness :
  ∃ out,
    convertRow pagesInfo
      [("title", JStr "a"); ("_exist_until", JNum 5); ("body", JStr "x")]
    = inr out
    ∧ objKeys out = ["title"; "body"]
    ∧ objGet out "_exist_until" = JUndefined.
Proof.
  eexists. split; [vm_compute; reflexivity|].
  edestruct (convertRow_columns pagesInfo
               [("title", JStr "a"); ("_exist_until", JNum 5);
                ("body", JStr "x")])
    as (Hkeys & Hmarker & _); [vm_compute; reflexivity|].
  split; [rewrite Hkeys; vm_compute; reflexivity|exact Hmarker].
Defined.

(** X14, on two reads of three and of two revisions. *)
Lemma get_next_accumulates_witness :
  ∃ res1 w1 res2 w2,
    _get "en_pages" readPage None (Some pagesInfo) None
      (db (mkState [inr (AllRows revisions); inr (AllRows (take 2 revisions))]
             [] None (inr tt) 1000)) = (Ok res1, w1)
    ∧ _get "en_pages" (withNext (res_next res1) readPage) None
        (Some pagesInfo) None w1 = (Ok res2, w2)
    ∧ res_next res2 = Some 5.
Proof.
  edestruct (get_next_accumulates "en_pages" readPage None pagesInfo None
               (db (mkState [inr (AllRows revisions);
                             inr (AllRows (take 2 revisions))]
                      [] None (inr tt) 1000))
               (mkStmt "select * from en_pages_data" [JStr "a"])
               (AllRows revisions)
               (mkState [inr (AllRows (take 2 revisions))] [] None (inr tt)
                  1000)
               revisions
               (mkStmt "select * from en_pages_data" [JStr "a"])
               (AllRows (take 2 revisions))
               (mkState [] [] None (inr tt) 1000)
               (take 2 revisions))
    as (res1 & w1 & res2 & w2 & Hfirst & Hsecond & _ & _ & Hnext);
    [reflexivity|reflexivity|reflexivity|done|vm_compute; reflexivity
    |reflexivity|reflexivity|done|vm_compute; reflexivity|].
  exists res1, w1, res2, w2. split; [exact Hfirst|]. split; [exact Hsecond|].
  rewrite Hnext. reflexivity.
Defined.

(** X15, on a table whose schema is cached. *)
Lemma dropTable_evicts_witness :
  cached "en_pages" (dropTable "en" (Some "pages") warm).2 = None.
Proof.
  destruct (dropTable_evicts "en" (Some "pages") warm) as [Hevicted _].
  exact Hevicted.
Defined.

(** X16, on an engine that is busy when the metadata is read. *)
Lemma dropTable_load_rejected_witness :
  dropTable "en" (Some "pages") (db (answering (inl busy)))
  = (Reject busy,
     mkDB ∅ ∅ (mkState [] [] None (inr tt) 1000)
       [EvAll "select * from en_pages_meta" []]).
Proof.
  eapply (dropTable_load_rejected "en" (Some "pages")
            (db (answering (inl busy)))
            (mkStmt "select * from en_pages_meta" []));
    reflexivity.
Defined.

(** X17, on a read of a table that was just dropped. *)
Lemma dropTable_then_get_witness :
  (get "en" readPage (dropTable "en" (Some "pages") warm).2).1
  = Reject (Error "restbase-sqlite3: No schema for en_pages_data").
Proof.
  exact (dropTable_then_get "en" (Some "pages") warm pagesInfo (inr tt) idle
           readPage (mkStmt "select * from en_pages_meta" [])
           (inr AllAbsent) idle eq_refl eq_refl eq_refl eq_refl eq_refl
           (or_introl eq_refl)).
Defined.

(** X18, on a table that is created again while the cache holds another
    schema for it. *)
Lemma createTable_ignores_cache_witness :
  (createTable "en" pages
     (mkDB {["en_pages" := Some pages2Info]} ∅ (storing pages) [])).1
  = Ok (mkAck 201)
  ∧ trace (createTable "en" pages
             (mkDB {["en_pages" := Some pages2Info]} ∅ (storing pages) [])).2
    = [EvAll "select * from en_pages_meta" []].
Proof.
  destruct (createTable_ignores_cache "en" pages
              {["en_pages" := Some pages2Info]} (db (storing pages)))
    as (Hsame & Htrace & _).
  split.
  - etransitivity; [exact Hsame|]. vm_compute. reflexivity.
  - etransitivity; [exact Htrace|]. vm_compute. reflexivity.
Defined.
